(** * Currency converter server: rate acquisition, caching and fallback

    A shallow embedding of
      - [src/services/exchangeRateService.js] (cache slot, refresh, reads,
        conversion, currency listing),
      - [src/database/index.js] ([saveRates], [getRates]),
      - [src/utils/validation.js],
      - [src/config/index.js] ([BASE_CURRENCY]),
      - [src/controllers/currencyController.js] (the three route handlers),
      - [src/index.js] (the events the process reacts to),
    together with the properties the specification states about them.

    The service is asynchronous JavaScript.  Every [async] function is
    modelled as a computation in a small state-and-exception monad [M]:
    a rejected promise is a [Throw], a resolved one a [Normal] completion.
    What the outside world answers during one invocation (the upstream
    HTTP response, the error argument of the SQLite callbacks, the clocks,
    the display names) is read from a [World] record. *)

From Stdlib Require Import Ascii String QArith Qcanon Qround Qabs.
From stdpp Require Import base option list sorting strings gmap.

Local Open Scope string_scope.

(** ** JavaScript numbers

    The service multiplies, divides, rounds with [Number(x.toFixed(6))] and
    tests numbers for truthiness.  These four operations are the interface
    the embedding is written against. *)

Class JSNumber (num : Type) := {
  num_mul : num → num → num;          (* x * y *)
  num_div : num → num → num;          (* x / y *)
  toFixed6 : num → num;               (* Number(x.toFixed(6)) *)
  falsy : num → bool;                 (* !x *)
}.

(** ** Configuration ([src/config/index.js]) *)

Definition BASE_CURRENCY : string := "USD".

(** ** Validation ([src/utils/validation.js])

    [/^[A-Z]{3}$/.test(code)]: exactly three characters, each in [A-Z]. *)

Definition is_upper (c : ascii) : bool :=
  ((65 <=? nat_of_ascii c) && (nat_of_ascii c <=? 90))%nat.

Definition validateCurrencyCode (code : string) : bool :=
  match code with
  | String a (String b (String c EmptyString)) =>
      is_upper a && is_upper b && is_upper c
  | _ => false
  end.

(** ** Exceptions, log lines and I/O events *)

Inductive Exn :=
  | NetworkError        (* fetch() rejected *)
  | SyntaxError         (* response.json() or JSON.parse threw *)
  | TypeError           (* property read on null *)
  | SqliteError.        (* err argument of a sqlite3 callback *)

Inductive LogLine :=
  | ConsoleError (msg : string) (e : Exn)
  | ConsoleLog (msg : string).

Inductive IOEvent :=
  | IoFetch                       (* fetch(API_URL) *)
  | IoDbRun (key : string)        (* INSERT OR REPLACE ... *)
  | IoDbGet (key : string).       (* SELECT ... WHERE base_currency = ? *)

Inductive Completion (A : Type) :=
  | Normal (a : A)
  | Throw (e : Exn).
Global Arguments Normal {A} a.
Global Arguments Throw {A} e.

Section Service.
Context {num : Type} `{JSNumber num}.

(** ** Data model *)

(** What stands where a rates object is expected: an object whose own
    string keys map to numbers, or [null] or [undefined] (the field is null
    or missing).  Reading a property of the latter throws a [TypeError].
    Other JSON values in this place (numbers, strings, arrays), which the
    reads treat as an object without currency codes, are not represented. *)
Inductive JSRates :=
  | RatesObject (r : gmap string num)
  | Nullish.

(** The own numeric property [k] of a rates value, if it has one. *)
Global Instance JSRates_lookup : Lookup string num JSRates := λ k v,
  match v with
  | RatesObject r => r !! k
  | Nullish => None
  end.

(** The snapshot object.  A property read [rates[k]] is modelled as the
    read of an own key, which it is for every name that [Object.prototype]
    does not define; the callers in [currencyController.js] only pass codes
    accepted by [validateCurrencyCode], none of which is such a name.
    Theorems that speak of a key that is missing carry this as a
    precondition. *)
Record Snapshot := mkSnapshot {
  base_currency : string;
  rates : JSRates;
  last_updated : string;
}.

(** The [rates TEXT] column: text that [JSON.parse] turns into a rates
    object, the text [null] or an SQL [NULL] (for both [JSON.parse] gives
    [null]), or text on which it throws. *)
Inductive Text :=
  | Serialized (r : gmap string num)
  | NullText
  | Garbled (raw : string).

(** [JSON.stringify(null)] is the text [null]; [JSON.stringify(undefined)]
    is [undefined], which the driver binds as [NULL]. *)
Definition JSON_stringify (v : JSRates) : Text :=
  match v with
  | RatesObject r => Serialized r
  | Nullish => NullText
  end.

Definition JSON_parse (t : Text) : Exn + JSRates :=
  match t with
  | Serialized r => inr (RatesObject r)
  | NullText => inr Nullish
  | Garbled _ => inl SyntaxError
  end.

(** One row of table [exchange_rates]; [base_currency] is its primary key. *)
Record Row := mkRow {
  row_base_currency : string;
  row_rates : Text;
  row_last_updated : string;
}.

(** The body of the upstream response once [response.json()] resolved:
    JSON [null], or a value with a [result] field ([result] is any string
    other than ["success"] for values that carry none) and a
    [conversion_rates] field: the rate mapping of the provider's contract,
    or nothing (the field is missing or null). *)
Inductive Json :=
  | JNull
  | JObject (result : string) (conversion_rates : JSRates).

Inductive FetchOutcome :=
  | FetchRejects                  (* network error *)
  | JsonRejects                   (* body is not JSON *)
  | Body (data : Json).

(** What the environment answers during one invocation. *)
Record World := mkWorld {
  upstream : FetchOutcome;
  db_run_err : option Exn;            (* err passed to the db.run callback *)
  db_get_err : option Exn;            (* err passed to the db.get callback *)
  date_now : string;                  (* new Date().toISOString() *)
  CURRENT_TIMESTAMP : string;         (* SQLite's clock *)
  display_name : string → option string;
    (* new Intl.DisplayNames(["en"], {type: "currency"}).of(code) *)
}.

(** The module-level [ratesCache] slot, the SQLite table, the console and
    the trace of I/O performed so far (most recent first). *)
Record State := mkState {
  ratesCache : option Snapshot;
  db : gmap string Row;
  console : list LogLine;
  io : list IOEvent;
}.

(** ** The monad of asynchronous computations *)

Definition M (A : Type) : Type := World → State → Completion A * State.

Definition ret {A} (a : A) : M A := λ _ s, (Normal a, s).

Definition bind {A B} (m : M A) (k : A → M B) : M B := λ w s,
  match m w s with
  | (Normal a, s') => k a w s'
  | (Throw e, s') => (Throw e, s')
  end.

Definition throw {A} (e : Exn) : M A := λ _ s, (Throw e, s).

(** [try { body } catch (e) { handler e }] *)
Definition try_catch {A} (body : M A) (handler : Exn → M A) : M A := λ w s,
  match body w s with
  | (Normal a, s') => (Normal a, s')
  | (Throw e, s') => handler e w s'
  end.

Definition ask : M World := λ w s, (Normal w, s).
Definition modify (f : State → State) : M unit := λ _ s, (Normal tt, f s).

Definition console_error (msg : string) (e : Exn) : M unit :=
  modify (λ s, mkState (ratesCache s) (db s) (ConsoleError msg e :: console s) (io s)).

Definition console_log (msg : string) : M unit :=
  modify (λ s, mkState (ratesCache s) (db s) (ConsoleLog msg :: console s) (io s)).

Definition perform (ev : IOEvent) : M unit :=
  modify (λ s, mkState (ratesCache s) (db s) (console s) (ev :: io s)).

Definition read_cache : M (option Snapshot) :=
  λ _ s, (Normal (ratesCache s), s).

(** [ratesCache = v] *)
Definition assign_cache (v : option Snapshot) : M unit :=
  modify (λ s, mkState v (db s) (console s) (io s)).

Global Instance M_ret : MRet M := @ret.
Global Instance M_bind : MBind M := λ A B k m, bind m k.

Definition run {A} (m : M A) (w : World) (s : State) : Completion A := fst (m w s).
Definition exec {A} (m : M A) (w : World) (s : State) : State := snd (m w s).

(** ** Persistent store ([src/database/index.js]) *)

(** [db.run("INSERT OR REPLACE INTO exchange_rates ... VALUES (?, ?,
    CURRENT_TIMESTAMP)", [key, text], cb)]: the value handed to [cb]. *)
Definition db_run_upsert (key : string) (text : Text) : M (option Exn) := λ w s,
  let s1 := mkState (ratesCache s) (db s) (console s) (IoDbRun key :: io s) in
  match db_run_err w with
  | Some err => (Normal (Some err), s1)
  | None =>
      (Normal None,
       mkState (ratesCache s1)
               (<[key := mkRow key text (CURRENT_TIMESTAMP w)]> (db s1))
               (console s1) (io s1))
  end.

(** [db.get("SELECT * FROM exchange_rates WHERE base_currency = ?", [key],
    cb)]: the pair [(err, row)] handed to [cb]. *)
Definition db_get (key : string) : M (Exn + option Row) := λ w s,
  let s1 := mkState (ratesCache s) (db s) (console s) (IoDbGet key :: io s) in
  match db_get_err w with
  | Some err => (Normal (inl err), s1)
  | None => (Normal (inr (db s1 !! key)), s1)
  end.

Definition saveRates (baseCurrency : string) (r : JSRates) : M unit :=
  let ratesJson := JSON_stringify r in
  err ← db_run_upsert baseCurrency ratesJson;
  match err with
  | Some err =>
      console_error "Error saving to database:" err;;
      throw err
  | None =>
      console_log "Exchange rates updated successfully";;
      mret tt
  end.

Definition getRates (baseCurrency : string) : M (option Snapshot) :=
  answer ← db_get baseCurrency;
  match answer with
  | inl err =>
      console_error "Error loading from database:" err;;
      throw err
  | inr (Some row) =>
      match JSON_parse (row_rates row) with
      | inr parsed =>
          mret (Some {| base_currency := row_base_currency row;
                        rates := parsed;
                        last_updated := row_last_updated row |})
      | inl parseError =>
          console_error "Error parsing rates from database:" parseError;;
          throw parseError
      end
  | inr None => mret None
  end.

(** ** Rate acquisition service ([src/services/exchangeRateService.js]) *)

(** [await fetch(API_URL)] followed by [await response.json()]. *)
Definition fetch_json : M Json :=
  perform IoFetch;;
  w ← ask;
  match upstream w with
  | FetchRejects => throw NetworkError
  | JsonRejects => throw SyntaxError
  | Body data => mret data
  end.

(** [data.result] and [data.conversion_rates] *)
Definition get_result (data : Json) : M string :=
  match data with
  | JNull => throw TypeError
  | JObject result _ => mret result
  end.

Definition get_conversion_rates (data : Json) : M JSRates :=
  match data with
  | JNull => throw TypeError
  | JObject _ conversion_rates => mret conversion_rates
  end.

Definition updateExchangeRates : M unit :=
  try_catch
    (data ← fetch_json;
     result ← get_result data;
     if String.eqb result "success" then
       conversion_rates ← get_conversion_rates data;
       w ← ask;
       assign_cache (Some {| base_currency := BASE_CURRENCY;
                             rates := conversion_rates;
                             last_updated := date_now w |});;
       saveRates BASE_CURRENCY conversion_rates
     else mret tt)
    (λ error,
       console_error "Error updating exchange rates:" error;;
       cache ← read_cache;
       match cache with
       | None =>
           try_catch
             (loaded ← getRates BASE_CURRENCY;
              assign_cache loaded;;
              match loaded with
              | Some _ => console_log "Loaded rates from database backup"
              | None => mret tt
              end)
             (λ dbError, console_error "Error loading from database:" dbError)
       | Some _ => mret tt
       end).

Definition getExchangeRates : M (option Snapshot) :=
  cache ← read_cache;
  match cache with
  | Some snapshot => mret (Some snapshot)
  | None =>
      try_catch
        (getRates BASE_CURRENCY)
        (λ error, console_error "Error getting rates:" error;; mret None)
  end.

Record Conversion := mkConversion {
  conv_from : string;
  conv_to : string;
  conv_amount : num;
  conv_result : num;
  conv_rate : num;
  conv_last_updated : string;
}.

(** The value assigned to [convertedAmount] by the three-way branch, where
    [rate_from] is [rates[from]] and [rate_to] is [rates[to]]. *)
Definition convertedAmount (from to : string) (amount rate_from rate_to : num) : num :=
  if String.eqb from BASE_CURRENCY then num_mul amount rate_to
  else if String.eqb to BASE_CURRENCY then num_div amount rate_from
  else
    let amountInUSD := num_div amount rate_from in
    num_mul amountInUSD rate_to.

Definition convertCurrency (from to : string) (amount : num) : M (option Conversion) :=
  ratesData ← getExchangeRates;
  match ratesData with
  | None => mret None
  | Some ratesData =>
      match rates ratesData with
      | Nullish =>
          (* [rates[from]] on [null] or [undefined] *)
          throw TypeError
      | RatesObject r =>
          (* [!rates[from] || !rates[to]]: a missing key reads [undefined] *)
          match r !! from, r !! to with
          | Some rate_from, Some rate_to =>
              if falsy rate_from || falsy rate_to then mret None
              else
                let rounded :=
                  toFixed6 (convertedAmount from to amount rate_from rate_to) in
                mret (Some {| conv_from := from;
                              conv_to := to;
                              conv_amount := amount;
                              conv_result := rounded;
                              conv_rate := toFixed6 (num_div rounded amount);
                              conv_last_updated := last_updated ratesData |})
          | _, _ => mret None
          end
      end
  end.

Record Currency := mkCurrency {
  code : string;
  name : string;
}.

Record CurrencyList := mkCurrencyList {
  currencies : list Currency;
  list_last_updated : string;
}.

(** [Object.keys(o)].  The enumeration order of a JavaScript object is not
    kept by the map; [currencies_order_irrelevant] below shows that the
    listing does not depend on it. *)
Definition Object_keys (o : gmap string num) : list string := (map_to_list o).*1.

(** [a.localeCompare(b)].  It is only called on codes that passed the
    [A-Z]{3} filter, where collation is the order of the character codes. *)
Definition localeCompare (a b : string) : Z :=
  match String.compare a b with
  | Lt => (-1)%Z
  | Eq => 0%Z
  | Gt => 1%Z
  end.

(** [xs.sort(cmp)]: a stable sort that keeps [a] before [b] when
    [cmp(a, b) <= 0]. *)
Definition keeps_order {A} (cmp : A → A → Z) : relation A :=
  λ a b, (cmp a b ≤ 0)%Z.

Global Instance keeps_order_dec {A} (cmp : A → A → Z) : RelDecision (keeps_order cmp).
Proof. intros a b. unfold keeps_order. apply _. Defined.

Definition Array_sort {A} (cmp : A → A → Z) (xs : list A) : list A :=
  merge_sort (keeps_order cmp) xs.

(** The comparator handed to [sort], as an order on entries. *)
Definition by_code : relation Currency :=
  keeps_order (λ a b, localeCompare (code a) (code b)).

(** [displayNames.of(code) || code]: [undefined] and the empty string are
    falsy.  [of] is only called on codes that passed the filter, which are
    well-formed currency codes, so it does not throw. *)
Definition name_or_code (w : World) (c : string) : string :=
  match display_name w c with
  | Some n => if String.eqb n "" then c else n
  | None => c
  end.

Definition currencies_of (w : World) (keys : list string) : list Currency :=
  let cs :=
    (λ c, {| code := c; name := name_or_code w c |})
      <$> filter (λ c, validateCurrencyCode c = true) keys in
  Array_sort (λ a b, localeCompare (code a) (code b)) cs.

Definition getAvailableCurrencies : M (option CurrencyList) :=
  ratesData ← getExchangeRates;
  match ratesData with
  | None => mret None
  | Some ratesData =>
      match rates ratesData with
      | Nullish =>
          (* [Object.keys(null)] *)
          throw TypeError
      | RatesObject r =>
          w ← ask;
          mret (Some {| currencies := currencies_of w (Object_keys r);
                        list_last_updated := last_updated ratesData |})
      end
  end.

End Service.

Global Arguments JSRates : clear implicits.
Global Arguments Snapshot : clear implicits.
Global Arguments Text : clear implicits.
Global Arguments Row : clear implicits.
Global Arguments Json : clear implicits.
Global Arguments FetchOutcome : clear implicits.
Global Arguments World : clear implicits.
Global Arguments State : clear implicits.
Global Arguments M : clear implicits.
Global Arguments Conversion : clear implicits.

(** ** Exact rationals as numbers

    An instance of the number interface in which products and quotients are
    exact, and [toFixed6] follows ECMAScript's [Number.prototype.toFixed]:
    for [|x| < 10^21] the digits are those of the integer [n] for which
    [n / 10^6 - |x|] is closest to zero, the larger [n] on a tie, with the
    sign of [x]; from [10^21] on, the number is printed in full.  Binary
    floating point differs from it where a product or quotient is inexact
    and at rounding ties. *)

Definition Qc_toFixed6 (x : Qc) : Qc :=
  if Qle_bool (inject_Z (10 ^ 21)) (Qabs x) then x
  else
    let n := Qfloor (Qabs x * inject_Z (10 ^ 6) + (1 # 2))%Q in
    Q2Qc (Qmake (Z.sgn (Qnum x) * n) (10 ^ 6)).

Global Instance Qc_JSNumber : JSNumber Qc := {|
  num_mul := Qcmult;
  num_div := Qcdiv;
  toFixed6 := Qc_toFixed6;
  falsy := λ x, bool_decide (x = Q2Qc 0);
|}.

(** ** Vocabulary of the specification *)

Section Vocabulary.
Context {num : Type}.

(** The exception, if any, that the [try] block of [updateExchangeRates]
    meets before it looks at the provider's status: a network error
    ([fetch] rejects) or a malformed response ([response.json()] rejects,
    or the body is [null] and reading [data.result] throws). *)
Definition upstream_exception (o : FetchOutcome num) : option Exn :=
  match o with
  | FetchRejects => Some NetworkError
  | JsonRejects => Some SyntaxError
  | Body JNull => Some TypeError
  | Body (JObject _ _) => None
  end.

(** The provider answered, with a status other than ["success"]. *)
Definition non_success_status (o : FetchOutcome num) : bool :=
  match o with
  | Body (JObject result _) => negb (String.eqb result "success")
  | _ => false
  end.

(** The refresh failed in one of the ways the code recognises: network
    error, non-success provider status, or a response whose body is not
    JSON or is [null]. *)
Definition refresh_fails (o : FetchOutcome num) : bool :=
  bool_decide (is_Some (upstream_exception o)) || non_success_status o.

(** A malformed response that the code takes for a success: the status is
    ["success"] and there is no rate mapping. *)
Definition malformed_success (o : FetchOutcome num) : bool :=
  match o with
  | Body (JObject result Nullish) => String.eqb result "success"
  | _ => false
  end.

(** The snapshot that [getRates] builds from a row. *)
Definition stored_snapshot (row : Row num) (parsed : gmap string num) : Snapshot num :=
  {| base_currency := row_base_currency row;
     rates := RatesObject parsed;
     last_updated := row_last_updated row |}.

End Vocabulary.

(** ** Sample data *)

Definition sample_rates : gmap string Qc :=
  {[ "USD" := Q2Qc 1; "EUR" := Q2Qc (9 # 10); "JPY" := Q2Qc 150 ]}.

Definition sample_snapshot : Snapshot Qc :=
  {| base_currency := BASE_CURRENCY; rates := RatesObject sample_rates;
     last_updated := "2024-01-01T00:00:00.000Z" |}.

Definition sample_row : Row Qc :=
  {| row_base_currency := BASE_CURRENCY; row_rates := Serialized sample_rates;
     row_last_updated := "2023-12-31 00:00:00" |}.

Definition no_names : string → option string := λ _, None.

(** A world whose upstream answers [outcome] and whose database works. *)
Definition world_with (outcome : FetchOutcome Qc) : World Qc :=
  {| upstream := outcome; db_run_err := None; db_get_err := None;
     date_now := "2024-01-02T00:00:00.000Z";
     CURRENT_TIMESTAMP := "2024-01-02 00:00:00";
     display_name := no_names |}.

Definition live_state : State Qc :=
  {| ratesCache := Some sample_snapshot; db := ∅; console := []; io := [] |}.

Definition cold_cache_state : State Qc :=
  {| ratesCache := None; db := {[ BASE_CURRENCY := sample_row ]};
     console := []; io := [] |}.

(** A snapshot whose rates do not list the base currency. *)
Definition rates_without_base : gmap string Qc := {[ "EUR" := Q2Qc (9 # 10) ]}.

Definition no_base_snapshot : Snapshot Qc :=
  {| base_currency := BASE_CURRENCY; rates := RatesObject rates_without_base;
     last_updated := "2024-01-01T00:00:00.000Z" |}.

Definition no_base_state : State Qc :=
  {| ratesCache := Some no_base_snapshot; db := ∅; console := []; io := [] |}.

(** Rates with a stray key, as in the specification's listing example. *)
Definition listing_rates : gmap string Qc :=
  {[ "EUR" := Q2Qc (9 # 10); "jpy99" := Q2Qc 150; "GBP" := Q2Qc (8 # 10) ]}.

Definition listing_state : State Qc :=
  {| ratesCache := Some {| base_currency := BASE_CURRENCY;
                           rates := RatesObject listing_rates;
                           last_updated := "2024-01-01T00:00:00.000Z" |};
     db := ∅; console := []; io := [] |}.

(** 0.0000001, an amount the controller's [validateAmount] accepts. *)
Definition tiny_amount : Qc := Q2Qc (1 # 10000000).

(** The provider's error body, [{"result": "error", ...}]. *)
Definition error_body : Json Qc := JObject "error" Nullish.

(** [convertCurrency("EUR", "JPY", 100)] on [sample_rates]. *)
Definition sample_conversion : Conversion Qc :=
  let result := Qc_toFixed6 (Q2Qc 100 / Q2Qc (9 # 10) * Q2Qc 150)%Qc in
  {| conv_from := "EUR"; conv_to := "JPY"; conv_amount := Q2Qc 100;
     conv_result := result;
     conv_rate := Qc_toFixed6 (result / Q2Qc 100)%Qc;
     conv_last_updated := "2024-01-01T00:00:00.000Z" |}.

(** ** Amount validation ([src/utils/validation.js])

    [validateAmount] tests its argument with [isNaN] and compares it with
    the literals [0] and [1000000000]. *)

Class JSCompare (num : Type) := {
  isNaN : num → bool;                 (* isNaN(x) *)
  num_gt : num → num → bool;          (* x > y *)
  num_lt : num → num → bool;          (* x < y *)
  num_literal : Z → num;              (* an integer literal *)
}.

Definition validateAmount {num} `{JSCompare num} (amount : num) : bool :=
  negb (isNaN amount)
  && num_gt amount (num_literal 0)
  && num_lt amount (num_literal 1000000000).

(** Over exact rationals nothing is [NaN]. *)
Global Instance Qc_JSCompare : JSCompare Qc := {|
  isNaN := λ _, false;
  num_gt := λ x y, bool_decide (y < x)%Qc;
  num_lt := λ x y, bool_decide (x < y)%Qc;
  num_literal := λ z, Q2Qc (inject_Z z);
|}.

(** ** Process start ([src/services/exchangeRateService.js], line 5)

    [let ratesCache = null]: a freshly loaded module has an empty cache; the
    table is whatever the database file holds. *)

Definition module_load {num} (table : gmap string (Row num)) : State num :=
  {| ratesCache := None; db := table; console := []; io := [] |}.

(** ** Controllers ([src/controllers/currencyController.js]) *)

(** A value of [req.query]: missing, a string, or (for a repeated or
    bracketed parameter) an array or object. *)
Inductive QueryValue :=
  | QAbsent
  | QString (s : string)
  | QNested.

Record Request := mkRequest {
  query_from : QueryValue;
  query_to : QueryValue;
  query_amount : QueryValue;
}.

Module currencyController.
Section Controller.
Context {num : Type} `{JSNumber num} `{JSCompare num}.

(** [String.prototype.toUpperCase] and [Number(v)], as the runtime
    provides them. *)
Context (toUpperCase : string → string) (Number : QueryValue → num).

Inductive ResponseBody :=
  | JsonError (error : string)
  | JsonRates (rates : Snapshot num)
  | JsonCurrencies (currencies : CurrencyList)
  | JsonConversion (conversion : Conversion num).

(** What [res.status(code).json(body)] sends; [res.json(body)] sends it
    with status 200. *)
Record Response := mkResponse {
  status : nat;
  body : ResponseBody;
}.

Definition res_json (b : ResponseBody) : Response := mkResponse 200 b.

Definition getRates : M num Response :=
  try_catch
    (rates ← getExchangeRates;
     match rates with
     | None => mret (mkResponse 404 (JsonError "No exchange rates available"))
     | Some rates => mret (res_json (JsonRates rates))
     end)
    (λ error,
       console_error "Error in getRates controller:" error;;
       mret (mkResponse 500 (JsonError "Failed to retrieve rates"))).

Definition getCurrencies : M num Response :=
  try_catch
    (currencies ← getAvailableCurrencies;
     match currencies with
     | None => mret (mkResponse 404 (JsonError "Currency data not available"))
     | Some currencies => mret (res_json (JsonCurrencies currencies))
     end)
    (λ error,
       console_error "Error in getCurrencies controller:" error;;
       mret (mkResponse 500 (JsonError "Failed to retrieve currencies"))).

(** [v?.toUpperCase()]: [undefined] for a missing parameter; an array or an
    object has no [toUpperCase], and calling it throws. *)
Definition optional_toUpperCase (v : QueryValue) : M num (option string) :=
  match v with
  | QAbsent => mret None
  | QString s => mret (Some (toUpperCase s))
  | QNested => throw TypeError
  end.

Definition invalid_code_response : Response :=
  mkResponse 400 (JsonError "Invalid currency code. Must be 3 uppercase letters.").

Definition invalid_amount_response : Response :=
  mkResponse 400
    (JsonError "Invalid amount. Must be a positive number less than 1 billion.").

Definition convert (req : Request) : M num Response :=
  from ← optional_toUpperCase (query_from req);
  to ← optional_toUpperCase (query_to req);
  let amount := Number (query_amount req) in
  match from, to with
  | Some from, Some to =>
      (* [!from || !to || !validateCurrencyCode(from) || !validateCurrencyCode(to)] *)
      if String.eqb from "" || String.eqb to ""
         || negb (validateCurrencyCode from) || negb (validateCurrencyCode to)
      then mret invalid_code_response
      else if negb (validateAmount amount) then mret invalid_amount_response
      else
        try_catch
          (result ← convertCurrency from to amount;
           match result with
           | None =>
               mret (mkResponse 400
                       (JsonError "Invalid currency code or rates not available"))
           | Some result => mret (res_json (JsonConversion result))
           end)
          (λ error,
             console_error "Error in convert controller:" error;;
             mret (mkResponse 500 (JsonError "Conversion failed")))
  | _, _ =>
      (* [!from] or [!to] holds for [undefined] *)
      mret invalid_code_response
  end.

End Controller.

Global Arguments ResponseBody : clear implicits.
Global Arguments Response : clear implicits.
End currencyController.

(** ** The server ([src/index.js])

    The process reacts to two kinds of events: the update that runs at start
    and on every cron tick, and requests to the three routes.  Events are
    handled one at a time, each in the world it meets; a handler that
    rejects leaves the state it reached. *)

Inductive Event :=
  | ScheduledUpdate                   (* updateExchangeRates() *)
  | GetRates                          (* GET /rates *)
  | GetCurrencies                     (* GET /currencies *)
  | GetConvert (req : Request).       (* GET /convert *)

Definition is_request (ev : Event) : bool :=
  match ev with
  | ScheduledUpdate => false
  | _ => true
  end.

Section Server.
Context {num : Type} `{JSNumber num} `{JSCompare num}.
Context (toUpperCase : string → string) (Number : QueryValue → num).

Definition handle (ev : Event) : M num unit :=
  match ev with
  | ScheduledUpdate => updateExchangeRates
  | GetRates => currencyController.getRates;; mret tt
  | GetCurrencies => currencyController.getCurrencies;; mret tt
  | GetConvert req => currencyController.convert toUpperCase Number req;; mret tt
  end.

Definition serve (events : list (Event * World num)) (s : State num) : State num :=
  foldl (λ s ew, exec (handle ew.1) ew.2 s) s events.

End Server.

(** The tables and caches the service itself produces: every row is filed
    under its own [base_currency], which is [BASE_CURRENCY], and so is the
    cached snapshot. *)
Definition single_base {num} (s : State num) : Prop :=
  (∀ snap, ratesCache s = Some snap → base_currency snap = BASE_CURRENCY)
  ∧ (∀ k row, db s !! k = Some row →
              k = BASE_CURRENCY ∧ row_base_currency row = BASE_CURRENCY).

(** The value a promise resolved to, if it did. *)
Definition resolved {A} (c : Completion (option A)) : option A :=
  match c with
  | Normal o => o
  | Throw _ => None
  end.

(** The snapshot a successful refresh builds in world [w]. *)
Definition fresh_snapshot {num} (w : World num) (r : JSRates num) : Snapshot num :=
  {| base_currency := BASE_CURRENCY; rates := r; last_updated := date_now w |}.

(** The request passes the controller's validation: both codes are strings
    that, upper-cased, are currency codes, and the amount is valid. *)
Definition accepted {num} `{JSCompare num}
    (toUpperCase : string → string) (Number : QueryValue → num)
    (req : Request) : bool :=
  match query_from req, query_to req with
  | QString f, QString t =>
      validateCurrencyCode (toUpperCase f)
      && validateCurrencyCode (toUpperCase t)
      && validateAmount (Number (query_amount req))
  | _, _ => false
  end.

Definition is_nested (v : QueryValue) : bool :=
  match v with
  | QNested => true
  | _ => false
  end.

(** The snapshot that [getExchangeRates] resolves to has no rates object:
    its [rates] is [null] or [undefined]. *)
Definition serves_null_rates {num} (w : World num) (s : State num) : Prop :=
  ∃ snap, run getExchangeRates w s = Normal (Some snap) ∧ rates snap = Nullish.

(** How a read built on [getExchangeRates] completes: normally unless the
    snapshot served has no rates object, and then with a [TypeError]. *)
Definition completes_unless_null_rates {num A}
    (w : World num) (s : State num) (c : Completion A) : Prop :=
  match c with
  | Normal _ => ¬ serves_null_rates w s
  | Throw e => e = TypeError ∧ serves_null_rates w s
  end.

(** ** Sample requests *)

(** A runtime for the examples: upper-casing of ASCII letters, and a
    [Number] that reads the two amounts used below. *)
Definition ascii_upper (c : ascii) : ascii :=
  let n := nat_of_ascii c in
  if ((97 <=? n) && (n <=? 122))%nat then ascii_of_nat (n - 32) else c.

Fixpoint sample_toUpperCase (s : string) : string :=
  match s with
  | EmptyString => EmptyString
  | String c rest => String (ascii_upper c) (sample_toUpperCase rest)
  end.

Definition sample_Number (v : QueryValue) : Qc :=
  match v with
  | QString "100" => Q2Qc 100
  | QString "-5" => Q2Qc (-5)
  | _ => Q2Qc 0
  end.

Definition good_request : Request :=
  mkRequest (QString "eur") (QString "jpy") (QString "100").

Definition lowercase_digit_request : Request :=
  mkRequest (QString "eu1") (QString "jpy") (QString "100").

Definition negative_amount_request : Request :=
  mkRequest (QString "eur") (QString "jpy") (QString "-5").

Definition garbled_row : Row Qc :=
  {| row_base_currency := BASE_CURRENCY; row_rates := Garbled "{not json";
     row_last_updated := "2023-12-31 00:00:00" |}.

Definition success_body : Json Qc := JObject "success" (RatesObject sample_rates).

(** A body with the status ["success"] and no [conversion_rates]. *)
Definition success_without_rates : Json Qc := JObject "success" Nullish.

Definition success_world : World Qc := world_with (Body success_body).

(** The same answer from the provider a day later. *)
Definition later_success_world : World Qc :=
  {| upstream := Body success_body; db_run_err := None; db_get_err := None;
     date_now := "2024-01-03T00:00:00.000Z";
     CURRENT_TIMESTAMP := "2024-01-03 00:00:00";
     display_name := no_names |}.

(** A table whose USD row holds the text [null]. *)
Definition null_row : Row Qc :=
  {| row_base_currency := BASE_CURRENCY; row_rates := NullText;
     row_last_updated := "2023-12-31 00:00:00" |}.

Definition null_rates_state : State Qc :=
  module_load {[ BASE_CURRENCY := null_row ]}.

Definition garbled_state : State Qc :=
  module_load {[ BASE_CURRENCY := garbled_row ]}.

Definition nested_request : Request :=
  mkRequest QNested (QString "usd") (QString "100").

Definition request_events : list (Event * World Qc) :=
  [ (GetRates, world_with FetchRejects);
    (GetConvert good_request, world_with FetchRejects);
    (GetCurrencies, world_with FetchRejects) ].

Definition mixed_events : list (Event * World Qc) :=
  (ScheduledUpdate, world_with FetchRejects)
    :: (ScheduledUpdate, success_world) :: request_events.

(** * Properties *)

Create HintDb service_ops.
Global Hint Unfold
  updateExchangeRates getExchangeRates getRates saveRates fetch_json
  get_result get_conversion_rates db_get db_run_upsert
  console_error console_log perform read_cache assign_cache
  ask modify throw try_catch bind ret run exec
  mbind mret M_bind M_ret : service_ops.

Ltac unfold_service := autounfold with service_ops in *; cbn [fst snd] in *.

Section Properties.
Context {num : Type} `{JSNumber num}.

Implicit Types (w : World num) (s : State num) (snap : Snapshot num).

(** *** Reads *)

Lemma getExchangeRates_hit w s snap :
  ratesCache s = Some snap →
  getExchangeRates w s = (Normal (Some snap), s).
Proof. intros Hc. unfold_service. by rewrite Hc. Qed.

(** A read never throws, and leaves cache and table as they were. *)
Lemma getExchangeRates_frame w s :
  ∃ o s', getExchangeRates w s = (Normal o, s')
          ∧ ratesCache s' = ratesCache s ∧ db s' = db s.
Proof.
  unfold_service.
  destruct (ratesCache s) as [snap|] eqn:Hc; [eauto|].
  destruct (db_get_err w) as [err|]; cbn; [eauto|].
  destruct (db s !! BASE_CURRENCY) as [row|]; cbn; [|eauto].
  destruct (JSON_parse (row_rates row)); cbn; eauto.
Qed.

Lemma convertCurrency_unfold w s from to amount :
  convertCurrency from to amount w s =
    match getExchangeRates w s with
    | (Normal (Some ratesData), s') =>
        match rates ratesData with
        | Nullish => (Throw TypeError, s')
        | RatesObject r =>
            match r !! from, r !! to with
            | Some rate_from, Some rate_to =>
                if falsy rate_from || falsy rate_to then (Normal None, s')
                else
                  let rounded :=
                    toFixed6 (convertedAmount from to amount rate_from rate_to) in
                  (Normal (Some (mkConversion from to amount rounded
                                   (toFixed6 (num_div rounded amount))
                                   (last_updated ratesData))), s')
            | _, _ => (Normal None, s')
            end
        end
    | (Normal None, s') => (Normal None, s')
    | (Throw e, s') => (Throw e, s')
    end.
Proof.
  unfold convertCurrency at 1, mbind, M_bind, bind.
  destruct (getExchangeRates w s) as [[[ratesData|]|e] s']; try done.
  destruct (rates ratesData) as [r|]; [|done].
  destruct (r !! from), (r !! to); try done.
  by destruct (falsy _ || falsy _).
Qed.

Lemma getAvailableCurrencies_unfold w s :
  getAvailableCurrencies w s =
    match getExchangeRates w s with
    | (Normal (Some ratesData), s') =>
        match rates ratesData with
        | Nullish => (Throw TypeError, s')
        | RatesObject r =>
            (Normal (Some (mkCurrencyList (currencies_of w (Object_keys r))
                             (last_updated ratesData))), s')
        end
    | (Normal None, s') => (Normal None, s')
    | (Throw e, s') => (Throw e, s')
    end.
Proof.
  unfold getAvailableCurrencies at 1, mbind, M_bind, bind.
  destruct (getExchangeRates w s) as [[[ratesData|]|e] s']; try done.
  by destruct (rates ratesData).
Qed.

(** C5. With an empty cache and a row for the base currency in the store
    that parses, on a database that answers, [getExchangeRates] resolves
    to the snapshot built from that row; the invocation performs one
    [SELECT] and nothing else. *)
Theorem getExchangeRates_falls_back_to_store w s row parsed :
  ratesCache s = None →
  db s !! BASE_CURRENCY = Some row →
  row_rates row = Serialized parsed →
  db_get_err w = None →
  run getExchangeRates w s = Normal (Some (stored_snapshot row parsed))
  ∧ io (exec getExchangeRates w s) = IoDbGet BASE_CURRENCY :: io s
  ∧ ratesCache (exec getExchangeRates w s) = None
  ∧ db (exec getExchangeRates w s) = db s
  ∧ console (exec getExchangeRates w s) = console s.
Proof.
  intros Hcache Hrow Hparse Hdb. unfold_service.
  rewrite Hcache, Hdb; cbn. rewrite Hrow; cbn. rewrite Hparse; cbn.
  by rewrite Hcache.
Qed.

(** C10. None of the three reads assigns the cache slot: after
    [getExchangeRates], [convertCurrency] or [getAvailableCurrencies] the
    slot holds what it held before, also when the read went to the store. *)
Theorem reads_leave_cache_unchanged w s :
  ratesCache (exec getExchangeRates w s) = ratesCache s
  ∧ (∀ from to amount,
       ratesCache (exec (convertCurrency from to amount) w s) = ratesCache s)
  ∧ ratesCache (exec getAvailableCurrencies w s) = ratesCache s.
Proof.
  destruct (getExchangeRates_frame w s) as (o & s' & Hget & Hcache & _).
  split; [|split].
  - unfold exec. by rewrite Hget.
  - intros from to amount. unfold exec.
    rewrite convertCurrency_unfold, Hget.
    destruct o as [ratesData|]; [|done].
    destruct (rates ratesData) as [r|]; [|done].
    destruct (r !! from), (r !! to); try done.
    by destruct (falsy _ || falsy _).
  - unfold exec. rewrite getAvailableCurrencies_unfold, Hget.
    destruct o as [ratesData|]; [|done]. by destruct (rates ratesData).
Qed.

(** C7. With a snapshot available whose rates are a mapping, and [from]
    and [to] the three-letter codes the caller guarantees (names for which
    a property read is the read of an own key), a [from] or [to] that is
    missing from the mapping makes [convertCurrency] resolve to [null]. *)
Theorem convertCurrency_unknown_currency w s snap r from to amount :
  run getExchangeRates w s = Normal (Some snap) →
  rates snap = RatesObject r →
  validateCurrencyCode from = true →
  validateCurrencyCode to = true →
  r !! from = None ∨ r !! to = None →
  run (convertCurrency from to amount) w s = Normal None.
Proof.
  unfold run. intros Hget Hrates _ _ Hmissing. rewrite convertCurrency_unfold.
  destruct (getExchangeRates w s) as [c s']; cbn in Hget; subst c.
  rewrite Hrates.
  destruct Hmissing as [-> | ->]; [done|].
  by destruct (r !! from).
Qed.

(** *** Refresh *)

(** The [catch] block of [updateExchangeRates], run with the cache set. *)
Lemma updateExchangeRates_failure_keeps w s snap :
  ratesCache s = Some snap →
  refresh_fails (upstream w) = true →
  ratesCache (exec updateExchangeRates w s) = Some snap.
Proof.
  intros Hcache Hfail. unfold_service.
  destruct (upstream w) as [| | [|result r]]; cbn; rewrite ?Hcache; try done.
  cbn in Hfail. destruct (String.eqb result "success"); [done|]. by cbn.
Qed.

(** C2, amended. When the cache holds a snapshot and a refresh fails by a
    network error, a non-success status, or a response whose body is not
    JSON or is [null], the slot still holds that snapshot and
    [getExchangeRates] afterwards resolves to it. *)
Theorem sticky_last_good w s snap :
  ratesCache s = Some snap →
  refresh_fails (upstream w) = true →
  ratesCache (exec updateExchangeRates w s) = Some snap
  ∧ ∀ w', run getExchangeRates w' (exec updateExchangeRates w s)
          = Normal (Some snap).
Proof.
  intros Hcache Hfail.
  pose proof (updateExchangeRates_failure_keeps w s snap Hcache Hfail) as Hkept.
  split; [done|]. intros w'. unfold run.
  by rewrite (getExchangeRates_hit w' _ snap Hkept).
Qed.

(** What [updateExchangeRates] does when the provider answers with a
    status other than ["success"]: the [if] has no [else], nothing is
    thrown, and the only trace left is the request itself. *)
Lemma updateExchangeRates_non_success w s result r :
  upstream w = Body (JObject result r) →
  String.eqb result "success" = false →
  updateExchangeRates w s
  = (Normal tt, mkState (ratesCache s) (db s) (console s) (IoFetch :: io s)).
Proof. intros Hup Hres. unfold_service. rewrite Hup; cbn. by rewrite Hres. Qed.

(** What it does when the [try] block throws while the cache is empty: it
    reads the store once, and the cache ends up empty exactly when that
    read fails, finds no row, or finds a row that does not parse. *)
Lemma updateExchangeRates_exception_loads_store w s e :
  upstream_exception (upstream w) = Some e →
  ratesCache s = None →
  let s' := exec updateExchangeRates w s in
  io s' = IoDbGet BASE_CURRENCY :: IoFetch :: io s
  ∧ ratesCache s' =
      match db_get_err w, db s !! BASE_CURRENCY with
      | None, Some row =>
          match row_rates row with
          | Serialized parsed => Some (stored_snapshot row parsed)
          | NullText =>
              Some (mkSnapshot (row_base_currency row) Nullish
                      (row_last_updated row))
          | Garbled _ => None
          end
      | _, _ => None
      end.
Proof.
  intros Hup Hcache. unfold_service.
  destruct (upstream w) as [| | [|result r]]; try done; cbn; rewrite Hcache;
    (destruct (db_get_err w) as [err|]; cbn; [by rewrite ?Hcache|]);
    (destruct (db s !! BASE_CURRENCY) as [row|]; cbn; [|done]);
    by destruct (row_rates row); cbn; rewrite ?Hcache.
Qed.

(** C9. Whatever the upstream fetch, the store write and the store read
    do, [updateExchangeRates] completes normally; and each exception met
    on the way (by the fetch, by [saveRates], by the fallback [getRates])
    is on the console afterwards. *)
Theorem updateExchangeRates_never_raises w s :
  run updateExchangeRates w s = Normal tt
  ∧ (∀ e, upstream_exception (upstream w) = Some e →
          ConsoleError "Error updating exchange rates:" e
            ∈ console (exec updateExchangeRates w s))
  ∧ (∀ r e, upstream w = Body (JObject "success" r) → db_run_err w = Some e →
            ConsoleError "Error saving to database:" e
              ∈ console (exec updateExchangeRates w s)
            ∧ ConsoleError "Error updating exchange rates:" e
              ∈ console (exec updateExchangeRates w s))
  ∧ (∀ e0 e, upstream_exception (upstream w) = Some e0 → ratesCache s = None →
             db_get_err w = Some e →
             ConsoleError "Error loading from database:" e
               ∈ console (exec updateExchangeRates w s)).
Proof.
  unfold_service.
  destruct (upstream w) as [| | [|result r]] eqn:Hup; cbn;
    [| | |destruct (String.eqb result "success") eqn:Hres; cbn;
          [apply String.eqb_eq in Hres as ->;
           destruct (db_run_err w) as [err|] eqn:Hrun; cbn|]];
    try (destruct (ratesCache s) as [snap|] eqn:Hcache; cbn;
         [|destruct (db_get_err w) as [err|] eqn:Hget; cbn;
           [|destruct (db s !! BASE_CURRENCY) as [row|]; cbn;
             [destruct (row_rates row); cbn|]]]);
    rewrite ?Hcache; cbn;
    repeat split; try done; intros; simplify_eq/=; set_solver.
Qed.

(** *** Conversion *)

Lemma lookup_rates_Some (v : JSRates num) k x :
  v !! k = Some x ↔ ∃ r, v = RatesObject r ∧ r !! k = Some x.
Proof.
  destruct v as [r|]; split.
  - intros Hk. by exists r.
  - by intros (? & [= <-] & ?).
  - intros Hk. discriminate Hk.
  - by intros (? & [=] & _).
Qed.

Lemma convertedAmount_from_base to (amount rate_from rate_to : num) :
  convertedAmount BASE_CURRENCY to amount rate_from rate_to
  = num_mul amount rate_to.
Proof. reflexivity. Qed.

(** C3. In every conversion that [convertCurrency] returns, [result] is
    the converted amount rounded by [toFixed6], and [rate] is [toFixed6]
    of that rounded [result] divided by [amount]. *)
Theorem rate_derived_from_rounded_result w s from to amount c :
  run (convertCurrency from to amount) w s = Normal (Some c) →
  conv_rate c = toFixed6 (num_div (conv_result c) amount)
  ∧ ∃ snap rate_from rate_to,
      run getExchangeRates w s = Normal (Some snap)
      ∧ rates snap !! from = Some rate_from
      ∧ rates snap !! to = Some rate_to
      ∧ conv_result c
        = toFixed6 (convertedAmount from to amount rate_from rate_to).
Proof.
  unfold run. rewrite convertCurrency_unfold.
  destruct (getExchangeRates w s) as [[[snap|]|e] s']; cbn; try done.
  destruct (rates snap) as [r|] eqn:Hrates; [|done].
  destruct (r !! from) as [rate_from|] eqn:Hfrom; [|done].
  destruct (r !! to) as [rate_to|] eqn:Hto; [|done].
  destruct (falsy rate_from || falsy rate_to); cbn; [done|].
  intros [= <-]; cbn. split; [done|].
  exists snap, rate_from, rate_to. rewrite Hrates. by split_and!.
Qed.

(** C4. With a snapshot available and both currencies in its rates (as
    the positive, hence truthy, multipliers of the data model),
    [convertCurrency] returns a conversion whose [result] is [toFixed6] of
    [amount * rates[to]] when [from] is the base currency, of
    [amount / rates[from]] when [to] is, and of
    [(amount / rates[from]) * rates[to]] otherwise. *)
Theorem convertCurrency_routes_through_base
    w s snap from to amount rate_from rate_to :
  run getExchangeRates w s = Normal (Some snap) →
  rates snap !! from = Some rate_from →
  rates snap !! to = Some rate_to →
  falsy rate_from = false →
  falsy rate_to = false →
  ∃ c, run (convertCurrency from to amount) w s = Normal (Some c)
       ∧ conv_from c = from ∧ conv_to c = to ∧ conv_amount c = amount
       ∧ conv_last_updated c = last_updated snap
       ∧ conv_result c =
           toFixed6
             (if decide (from = BASE_CURRENCY) then num_mul amount rate_to
              else if decide (to = BASE_CURRENCY) then num_div amount rate_from
              else num_mul (num_div amount rate_from) rate_to).
Proof.
  unfold run. intros Hget Hfrom Hto Tfrom Tto. rewrite convertCurrency_unfold.
  destruct (getExchangeRates w s) as [o s']; cbn in Hget; subst o.
  apply lookup_rates_Some in Hfrom as (r & Hrates & Hfrom).
  rewrite Hrates in Hto |- *. change (r !! to = Some rate_to) in Hto.
  rewrite Hfrom, Hto, Tfrom, Tto; cbn.
  eexists; split; [reflexivity|]; cbn. repeat split.
  unfold convertedAmount.
  destruct (decide (from = BASE_CURRENCY)) as [->|Hne]; [done|].
  apply String.eqb_neq in Hne as ->.
  destruct (decide (to = BASE_CURRENCY)) as [->|Hne']; [done|].
  by apply String.eqb_neq in Hne' as ->.
Qed.

(** *** Currency listing *)

Lemma by_code_le a b : by_code a b ↔ String.le (code a) (code b).
Proof.
  unfold by_code, keeps_order, localeCompare, String.le, String.leb.
  destruct (String.compare (code a) (code b)); cbn; split; (done || lia).
Qed.

Local Instance by_code_total : Total by_code.
Proof.
  intros a b. rewrite !by_code_le. apply (total String.le).
Qed.

Local Instance by_code_trans : Transitive by_code.
Proof.
  intros a b c. rewrite !by_code_le. apply (transitivity (R := String.le)).
Qed.

Lemma Object_keys_elem (o : gmap string num) k :
  k ∈ Object_keys o ↔ is_Some (o !! k).
Proof.
  unfold Object_keys. rewrite list_elem_of_fmap. split.
  - intros ([k' x] & -> & Hin). apply elem_of_map_to_list in Hin. by exists x.
  - intros [x Hx]. exists (k, x). split; [done|]. by apply elem_of_map_to_list.
Qed.


Lemma code_of_entries (f : string → string) (l : list string) :
  code <$> ((λ c, {| code := c; name := f c |}) <$> l) = l.
Proof. induction l as [|c l IH]; cbn; [done|]. by rewrite IH. Qed.

Lemma currencies_of_codes w keys :
  code <$> currencies_of w keys
  ≡ₚ filter (λ c, validateCurrencyCode c = true) keys.
Proof.
  unfold currencies_of, Array_sort. rewrite merge_sort_Permutation.
  by rewrite code_of_entries.
Qed.


Lemma currencies_of_names w keys e :
  e ∈ currencies_of w keys → name e = name_or_code w (code e).
Proof.
  unfold currencies_of, Array_sort. rewrite merge_sort_Permutation.
  rewrite list_elem_of_fmap. by intros (c & -> & _).
Qed.

(** The listing is a function of the set of keys, not of the order in
    which [Object.keys] enumerates them. *)
Lemma currencies_order_irrelevant w keys keys' :
  keys ≡ₚ keys' → currencies_of w keys = currencies_of w keys'.
Proof.
  intros Hperm. eapply StronglySorted_unique_strong with (R := by_code).
  - intros a b Ha Hb Hab Hba.
    apply currencies_of_names in Ha, Hb.
    assert (code a = code b) as Hcode.
    { apply by_code_le in Hab, Hba. by apply (anti_symm String.le). }
    destruct a, b; cbn in *. congruence.
  - apply (StronglySorted_merge_sort by_code).
  - apply (StronglySorted_merge_sort by_code).
  - unfold currencies_of, Array_sort. rewrite !merge_sort_Permutation.
    by rewrite Hperm.
Qed.


End Properties.

(** * Properties over exact rationals *)

Lemma Qc_toFixed6_one : Qc_toFixed6 (Q2Qc 1) = Q2Qc 1.
Proof. apply Qc_is_canon. by vm_compute. Qed.

Lemma Qc_div_self (x : Qc) : (0 < x)%Qc → (x / x)%Qc = Q2Qc 1.
Proof.
  intros Hpos. apply Qcmult_inv_r. intros ->. by apply Qclt_not_eq in Hpos.
Qed.

(** C6, amended. With a snapshot available whose rates map the base
    currency to 1, and a positive amount that [toFixed6] leaves as it is (at
    most six decimals), converting from the base currency to itself returns
    [result = amount] and [rate = 1]. *)
Theorem base_to_base_identity (w : World Qc) (s : State Qc) snap (amount : Qc) :
  run getExchangeRates w s = Normal (Some snap) →
  rates snap !! BASE_CURRENCY = Some (Q2Qc 1) →
  (0 < amount)%Qc →
  toFixed6 amount = amount →
  run (convertCurrency BASE_CURRENCY BASE_CURRENCY amount) w s
  = Normal (Some {| conv_from := BASE_CURRENCY;
                    conv_to := BASE_CURRENCY;
                    conv_amount := amount;
                    conv_result := amount;
                    conv_rate := Q2Qc 1;
                    conv_last_updated := last_updated snap |}).
Proof.
  unfold run. intros Hget Hbase Hpos Hfixed. rewrite convertCurrency_unfold.
  destruct (getExchangeRates w s) as [o s']; cbn in Hget; subst o.
  apply lookup_rates_Some in Hbase as (r & Hrates & Hbase).
  rewrite Hrates, Hbase.
  change (falsy (Q2Qc 1) || falsy (Q2Qc 1)) with false; cbn [fst].
  rewrite convertedAmount_from_base.
  change (num_mul amount (Q2Qc 1)) with (amount * 1)%Qc.
  rewrite Qcmult_1_r, Hfixed.
  change (num_div amount amount) with (amount / amount)%Qc.
  rewrite (Qc_div_self amount Hpos).
  change (toFixed6 (Q2Qc 1)) with (Qc_toFixed6 (Q2Qc 1)).
  by rewrite Qc_toFixed6_one.
Qed.

(** C6, as stated, fails.  On [sample_rates], where USD is quoted at 1, the
    positive amount 0.0000001 converts from USD to USD with [result = 0] and
    [rate = 0]; and on a snapshot that does not list USD the conversion
    resolves to [null]. *)
Lemma base_to_base_not_identity :
  let w := world_with FetchRejects in
  run getExchangeRates w live_state = Normal (Some sample_snapshot)
  ∧ (0 < tiny_amount)%Qc
  ∧ (∃ c, run (convertCurrency BASE_CURRENCY BASE_CURRENCY tiny_amount) w live_state
          = Normal (Some c)
          ∧ conv_result c = Q2Qc 0 ∧ conv_result c ≠ tiny_amount
          ∧ conv_rate c = Q2Qc 0 ∧ conv_rate c ≠ Q2Qc 1)
  ∧ run getExchangeRates w no_base_state = Normal (Some no_base_snapshot)
  ∧ run (convertCurrency BASE_CURRENCY BASE_CURRENCY (Q2Qc 100)) w no_base_state
    = Normal None.
Proof.
  cbv zeta. split; [done|]. split; [done|]. split; [|by split].
  eexists. split; [reflexivity|].
  split_and!;
    (by apply Qc_is_canon; vm_compute)
    || (intros Heq; apply (f_equal this) in Heq; by vm_compute in Heq).
Qed.

(** C1 fails on the code for a non-success provider status.  The cache is
    empty and the store holds a row for USD; the provider answers
    [{"result": "error"}].  [updateExchangeRates] completes with the cache
    still empty and without a [SELECT]: the trace holds the request alone.
    On the same state a network error does run the fallback, and the cache
    then holds the stored snapshot. *)
Theorem refresh_non_success_skips_store :
  let w := world_with (Body error_body) in
  refresh_fails (upstream w) = true
  ∧ ratesCache cold_cache_state = None
  ∧ db cold_cache_state !! BASE_CURRENCY = Some sample_row
  ∧ updateExchangeRates w cold_cache_state
    = (Normal tt,
       {| ratesCache := None; db := db cold_cache_state;
          console := []; io := [IoFetch] |})
  ∧ ratesCache (exec updateExchangeRates (world_with FetchRejects) cold_cache_state)
    = Some (stored_snapshot sample_row sample_rates).
Proof.
  cbv zeta. split_and!; [reflexivity.. | ].
  pose proof (updateExchangeRates_exception_loads_store
                (world_with FetchRejects) cold_cache_state NetworkError
                eq_refl eq_refl) as [_ Hcache].
  rewrite Hcache. reflexivity.
Qed.

(** C2, as stated, fails.  The cache holds [sample_snapshot]; the provider
    answers [{"result": "success"}] without a rate mapping, a malformed
    response.  [updateExchangeRates] installs a snapshot whose [rates] is
    [undefined] over the cached one; [getExchangeRates] afterwards returns
    that object, and a conversion then throws. *)
Lemma success_without_rates_replaces_snapshot :
  let w := world_with (Body success_without_rates) in
  let s' := exec updateExchangeRates w live_state in
  malformed_success (upstream w) = true
  ∧ ratesCache live_state = Some sample_snapshot
  ∧ ratesCache s'
    = Some {| base_currency := BASE_CURRENCY; rates := Nullish;
              last_updated := date_now w |}
  ∧ ratesCache s' ≠ Some sample_snapshot
  ∧ run getExchangeRates w s' ≠ Normal (Some sample_snapshot)
  ∧ run (convertCurrency "USD" "EUR" (Q2Qc 10)) w s' = Throw TypeError.
Proof. cbv zeta. by split_and!. Qed.

(** ** Instances of the theorems on the sample data *)

Lemma sticky_last_good_witness :
  ratesCache (exec updateExchangeRates (world_with (Body error_body)) live_state)
  = Some sample_snapshot
  ∧ ∀ w', run getExchangeRates w'
            (exec updateExchangeRates (world_with (Body error_body)) live_state)
          = Normal (Some sample_snapshot).
Proof.
  apply (sticky_last_good (world_with (Body error_body)) live_state sample_snapshot);
    reflexivity.
Defined.

Lemma updateExchangeRates_never_raises_witness :
  run updateExchangeRates (world_with FetchRejects) cold_cache_state = Normal tt
  ∧ ConsoleError "Error updating exchange rates:" NetworkError
      ∈ console (exec updateExchangeRates (world_with FetchRejects) cold_cache_state).
Proof.
  destruct (updateExchangeRates_never_raises (world_with FetchRejects) cold_cache_state)
    as (Hrun & Hlog & _).
  split; [exact Hrun | apply Hlog; reflexivity].
Defined.

Lemma getExchangeRates_falls_back_to_store_witness :
  run getExchangeRates (world_with FetchRejects) cold_cache_state
  = Normal (Some (stored_snapshot sample_row sample_rates))
  ∧ io (exec getExchangeRates (world_with FetchRejects) cold_cache_state)
    = [IoDbGet BASE_CURRENCY].
Proof.
  destruct (getExchangeRates_falls_back_to_store
              (world_with FetchRejects) cold_cache_state sample_row sample_rates)
    as (Hrun & Hio & _); [reflexivity..|].
  split; [exact Hrun | exact Hio].
Defined.

Lemma convertCurrency_unknown_currency_witness :
  run (convertCurrency "USD" "XYZ" (Q2Qc 10)) (world_with FetchRejects) live_state
  = Normal None.
Proof.
  apply (convertCurrency_unknown_currency
           (world_with FetchRejects) live_state sample_snapshot sample_rates
           "USD" "XYZ" (Q2Qc 10)).
  - reflexivity.
  - reflexivity.
  - reflexivity.
  - reflexivity.
  - right. vm_compute. reflexivity.
Defined.

Lemma rate_derived_from_rounded_result_witness :
  conv_rate sample_conversion
  = toFixed6 (num_div (conv_result sample_conversion) (Q2Qc 100)).
Proof.
  apply (rate_derived_from_rounded_result
           (world_with FetchRejects) live_state "EUR" "JPY" (Q2Qc 100) sample_conversion).
  vm_compute. reflexivity.
Defined.

Lemma convertCurrency_routes_through_base_witness :
  ∃ c, run (convertCurrency "EUR" "JPY" (Q2Qc 100)) (world_with FetchRejects) live_state
       = Normal (Some c)
       ∧ conv_result c
         = toFixed6 (num_mul (num_div (Q2Qc 100) (Q2Qc (9 # 10))) (Q2Qc 150)).
Proof.
  destruct (convertCurrency_routes_through_base
              (world_with FetchRejects) live_state sample_snapshot
              "EUR" "JPY" (Q2Qc 100) (Q2Qc (9 # 10)) (Q2Qc 150))
    as (c & Hrun & _ & _ & _ & _ & Hres); [vm_compute; reflexivity..|].
  exists c. split; [exact Hrun | exact Hres].
Defined.

Lemma base_to_base_identity_witness :
  run (convertCurrency BASE_CURRENCY BASE_CURRENCY (Q2Qc 100))
      (world_with FetchRejects) live_state
  = Normal (Some {| conv_from := BASE_CURRENCY;
                    conv_to := BASE_CURRENCY;
                    conv_amount := Q2Qc 100;
                    conv_result := Q2Qc 100;
                    conv_rate := Q2Qc 1;
                    conv_last_updated := last_updated sample_snapshot |}).
Proof.
  apply (base_to_base_identity (world_with FetchRejects) live_state sample_snapshot).
  - reflexivity.
  - vm_compute. reflexivity.
  - reflexivity.
  - apply Qc_is_canon. vm_compute. reflexivity.
Defined.


(** ** The specification's examples, evaluated *)

(** Conversion composition: 100 EUR at 0.9 into JPY at 150 is 16666.666667,
    at the rate 166.666667. *)
Example convert_EUR_JPY :
  run (convertCurrency "EUR" "JPY" (Q2Qc 100)) (world_with FetchRejects) live_state
  = Normal (Some sample_conversion)
  ∧ conv_result sample_conversion = Q2Qc (16666666667 # 1000000)
  ∧ conv_rate sample_conversion = Q2Qc (166666667 # 1000000).
Proof. split_and!; [by vm_compute | by apply Qc_is_canon; vm_compute..]. Qed.

(** Listing: of the keys EUR, jpy99 and GBP, only EUR and GBP are listed, in
    that order. *)
Example list_EUR_GBP :
  run getAvailableCurrencies (world_with FetchRejects) listing_state
  = Normal (Some {| currencies := [ {| code := "EUR"; name := "EUR" |};
                                    {| code := "GBP"; name := "GBP" |} ];
                    list_last_updated := "2024-01-01T00:00:00.000Z" |}).
Proof. by vm_compute. Qed.

(** The rate is derived from the rounded result: 0.0000001 USD into EUR at
    0.9 rounds to [result = 0], and the reported rate is 0, not 0.9. *)
Example rate_of_tiny_amount :
  ∃ c, run (convertCurrency "USD" "EUR" tiny_amount) (world_with FetchRejects) live_state
       = Normal (Some c)
       ∧ conv_result c = Q2Qc 0 ∧ conv_rate c = Q2Qc 0.
Proof.
  eexists. split; [reflexivity|]. split; by apply Qc_is_canon; vm_compute.
Qed.

(** Cold start: with nothing cached and nothing stored, a failed refresh
    leaves every read unavailable, without an exception. *)
Example cold_start :
  let w := world_with FetchRejects in
  let s := exec updateExchangeRates w (mkState None ∅ [] []) in
  run getExchangeRates w s = Normal None
  ∧ run (convertCurrency "USD" "EUR" (Q2Qc 10)) w s = Normal None
  ∧ run getAvailableCurrencies w s = Normal None.
Proof. by vm_compute. Qed.

(** * Further properties of the code *)

(** ** The persistent store *)

Section StoreProperties.
Context {num : Type} `{JSNumber num}.

Implicit Types (w : World num) (s : State num).

Lemma saveRates_resolves w s k r :
  db_run_err w = None →
  saveRates k r w s
  = (Normal tt,
     mkState (ratesCache s)
             (<[k := mkRow k (JSON_stringify r) (CURRENT_TIMESTAMP w)]> (db s))
             (ConsoleLog "Exchange rates updated successfully" :: console s)
             (IoDbRun k :: io s)).
Proof. intros Hok. unfold_service. by rewrite Hok. Qed.

Lemma saveRates_rejects w s k r e :
  db_run_err w = Some e →
  saveRates k r w s
  = (Throw e,
     mkState (ratesCache s) (db s)
             (ConsoleError "Error saving to database:" e :: console s)
             (IoDbRun k :: io s)).
Proof. intros Herr. unfold_service. by rewrite Herr. Qed.

(** [getRates] changes nothing but the console and the trace. *)
Lemma getRates_frame w s k :
  ratesCache (exec (getRates k) w s) = ratesCache s
  ∧ db (exec (getRates k) w s) = db s.
Proof.
  unfold_service. destruct (db_get_err w); cbn; [done|].
  destruct (db s !! k) as [row|]; cbn; [|done].
  by destruct (JSON_parse (row_rates row)).
Qed.


(** X2. Saving twice under one key keeps only the second write: the table
    is the one a single second write would have produced. *)
Theorem saveRates_last_write_wins w1 w2 s k r1 r2 :
  db_run_err w1 = None →
  db_run_err w2 = None →
  db (exec (saveRates k r2) w2 (exec (saveRates k r1) w1 s))
  = db (exec (saveRates k r2) w2 s)
  ∧ size (db (exec (saveRates k r2) w2 (exec (saveRates k r1) w1 s)))
    = size (db (exec (saveRates k r1) w1 s)).
Proof.
  intros H1 H2. unfold exec.
  rewrite (saveRates_resolves w1 s _ _ H1), !(saveRates_resolves w2 _ _ _ H2); cbn.
  rewrite insert_insert_eq. split; [done|].
  rewrite <- (insert_insert_eq (db s) k
                (mkRow k (JSON_stringify r2) (CURRENT_TIMESTAMP w2))
                (mkRow k (JSON_stringify r1) (CURRENT_TIMESTAMP w1))) at 1.
  rewrite !map_size_insert, lookup_insert_eq. done.
Qed.

(** X3. [saveRates] touches one row at most: the cache and the rows of all
    other keys are as before, and when the driver reports an error the
    promise rejects with it and the whole table is as before. *)
Theorem saveRates_touches_one_row w s k r :
  ratesCache (exec (saveRates k r) w s) = ratesCache s
  ∧ (∀ k', k' ≠ k → db (exec (saveRates k r) w s) !! k' = db s !! k')
  ∧ (∀ e, db_run_err w = Some e →
          run (saveRates k r) w s = Throw e
          ∧ db (exec (saveRates k r) w s) = db s).
Proof.
  unfold run, exec. destruct (db_run_err w) as [e|] eqn:Herr.
  - rewrite (saveRates_rejects _ _ _ _ _ Herr); cbn.
    split_and!; [done..|]. by intros ? [= <-].
  - rewrite (saveRates_resolves _ _ _ _ Herr); cbn.
    split_and!; [done | | done]. intros k' Hne. by rewrite lookup_insert_ne.
Qed.

(** X4. [getRates] never writes: cache and table are as before.  It
    resolves to [null] exactly when the driver reports no error and the
    table has no row for the key, and it rejects with a [SyntaxError] when
    the row's text does not parse. *)
Theorem getRates_reads_only w s k :
  ratesCache (exec (getRates k) w s) = ratesCache s
  ∧ db (exec (getRates k) w s) = db s
  ∧ (run (getRates k) w s = Normal None
     ↔ db_get_err w = None ∧ db s !! k = None)
  ∧ (∀ row raw, db_get_err w = None → db s !! k = Some row →
                row_rates row = Garbled raw →
                run (getRates k) w s = Throw SyntaxError).
Proof.
  destruct (getRates_frame w s k) as [Hcache Hdb].
  split; [done|]. split; [done|]. unfold_service.
  destruct (db_get_err w) as [e|]; cbn.
  { split; [|done]. split; [done|]. by intros [? _]. }
  destruct (db s !! k) as [row|]; cbn.
  - split.
    + destruct (row_rates row); cbn; split; (done || by intros [_ ?]).
    + intros ? raw _ [= <-] ->. done.
  - split; [|done]. done.
Qed.

End StoreProperties.

(** ** Refresh and reads *)

Section ServiceProperties.
Context {num : Type} `{JSNumber num}.

Implicit Types (w : World num) (s : State num) (snap : Snapshot num).

Lemma updateExchangeRates_success_saved w s r :
  upstream w = Body (JObject "success" r) →
  db_run_err w = None →
  updateExchangeRates w s
  = (Normal tt,
     mkState (Some (fresh_snapshot w r))
             (<[BASE_CURRENCY :=
                  mkRow BASE_CURRENCY (JSON_stringify r) (CURRENT_TIMESTAMP w)]>
                (db s))
             (ConsoleLog "Exchange rates updated successfully" :: console s)
             (IoDbRun BASE_CURRENCY :: IoFetch :: io s)).
Proof. intros Hup Hrun. unfold_service. rewrite Hup; cbn. by rewrite Hrun. Qed.

Lemma updateExchangeRates_success_unsaved w s r e :
  upstream w = Body (JObject "success" r) →
  db_run_err w = Some e →
  updateExchangeRates w s
  = (Normal tt,
     mkState (Some (fresh_snapshot w r)) (db s)
             (ConsoleError "Error updating exchange rates:" e
                :: ConsoleError "Error saving to database:" e :: console s)
             (IoDbRun BASE_CURRENCY :: IoFetch :: io s)).
Proof. intros Hup Hrun. unfold_service. rewrite Hup; cbn. by rewrite Hrun. Qed.

(** X5. A refresh that meets the status ["success"] installs the provider's
    rates in the cache, stamped with the current date, whether or not the
    store write works; the table receives the row for the base currency
    when the write works and is left as it was when it fails. *)
Theorem refresh_success_installs_and_persists w s r :
  upstream w = Body (JObject "success" r) →
  ratesCache (exec updateExchangeRates w s) = Some (fresh_snapshot w r)
  ∧ (db_run_err w = None →
     db (exec updateExchangeRates w s)
     = <[BASE_CURRENCY :=
           mkRow BASE_CURRENCY (JSON_stringify r) (CURRENT_TIMESTAMP w)]> (db s))
  ∧ (is_Some (db_run_err w) → db (exec updateExchangeRates w s) = db s).
Proof.
  intros Hup. unfold exec. destruct (db_run_err w) as [e|] eqn:Hrun.
  - rewrite (updateExchangeRates_success_unsaved _ _ _ _ Hup Hrun); cbn.
    by split_and!.
  - rewrite (updateExchangeRates_success_saved _ _ _ Hup Hrun); cbn.
    split_and!; [done..|]. by intros [? [=]].
Qed.


(** X7. Refreshing again against an unchanged answer moves nothing but
    the time stamps.  After the second refresh the cache holds the same
    rates for the same base currency, stamped with the second date; and
    when the first store write worked, every row of the table has the same
    base currency and the same rates text as after the first refresh,
    whether or not the second write works. *)
Theorem refresh_idempotent w1 w2 s r :
  upstream w1 = Body (JObject "success" r) →
  upstream w2 = Body (JObject "success" r) →
  db_run_err w1 = None →
  let s1 := exec updateExchangeRates w1 s in
  let s2 := exec updateExchangeRates w2 s1 in
  rates <$> ratesCache s2 = rates <$> ratesCache s1
  ∧ base_currency <$> ratesCache s2 = base_currency <$> ratesCache s1
  ∧ last_updated <$> ratesCache s2 = Some (date_now w2)
  ∧ ∀ k, row_rates <$> (db s2 !! k) = row_rates <$> (db s1 !! k)
         ∧ row_base_currency <$> (db s2 !! k)
           = row_base_currency <$> (db s1 !! k).
Proof.
  intros Hup1 Hup2 Hrun1. cbv zeta. unfold exec.
  rewrite (updateExchangeRates_success_saved _ _ _ Hup1 Hrun1).
  destruct (db_run_err w2) as [e|] eqn:Hrun2.
  - by rewrite (updateExchangeRates_success_unsaved _ _ _ _ Hup2 Hrun2).
  - rewrite (updateExchangeRates_success_saved _ _ _ Hup2 Hrun2); cbn.
    split_and!; [done..|]. intros k.
    destruct (decide (k = BASE_CURRENCY)) as [->|Hne].
    + by rewrite !lookup_insert_eq.
    + by rewrite !lookup_insert_ne.
Qed.

(** X8. A refresh that throws on an empty cache warms the cache from the
    store: with a row for the base currency that parses, on a database that
    answers, the cache then holds the stored snapshot, and later reads
    return it without touching the database, whatever its health. *)
Theorem refresh_warms_cache_from_store w s e row parsed :
  upstream_exception (upstream w) = Some e →
  ratesCache s = None →
  db_get_err w = None →
  db s !! BASE_CURRENCY = Some row →
  row_rates row = Serialized parsed →
  ratesCache (exec updateExchangeRates w s) = Some (stored_snapshot row parsed)
  ∧ ∀ w', getExchangeRates w' (exec updateExchangeRates w s)
          = (Normal (Some (stored_snapshot row parsed)),
             exec updateExchangeRates w s).
Proof.
  intros Hup Hcache Hget Hrow Hparse.
  destruct (updateExchangeRates_exception_loads_store w s e Hup Hcache)
    as [_ Hloaded].
  rewrite Hget, Hrow, Hparse in Hloaded.
  split; [done|]. intros w'. by apply getExchangeRates_hit.
Qed.

(** X9. [getExchangeRates] resolves to [null] exactly when the cache is
    empty and the store gives nothing: the driver reports an error, there
    is no row for the base currency, or the row's text does not parse. *)
Theorem getExchangeRates_unavailable_iff w s :
  run getExchangeRates w s = Normal None
  ↔ ratesCache s = None
    ∧ (is_Some (db_get_err w)
       ∨ db s !! BASE_CURRENCY = None
       ∨ ∃ row raw, db s !! BASE_CURRENCY = Some row
                    ∧ row_rates row = Garbled raw).
Proof.
  unfold_service. destruct (ratesCache s) as [snap|]; cbn.
  { split; [done|]. by intros [? _]. }
  destruct (db_get_err w) as [e|]; cbn.
  { split; [|done]. intros _. split; [done|]. left. by eexists. }
  destruct (db s !! BASE_CURRENCY) as [row|]; cbn.
  - destruct (row_rates row) as [r| |raw] eqn:Hrow; cbn.
    + split; [done|]. intros [_ [[? [=]]|[[=]|(? & ? & [= <-] & Hg)]]].
      by rewrite Hrow in Hg.
    + split; [done|]. intros [_ [[? [=]]|[[=]|(? & ? & [= <-] & Hg)]]].
      by rewrite Hrow in Hg.
    + split; [|done]. intros _. split; [done|]. right; right. eauto.
  - split; [|done]. intros _. split; [done|]. right; by left.
Qed.

Lemma serves_null_rates_inv w s o s' :
  getExchangeRates w s = (Normal o, s') →
  serves_null_rates w s ↔ ∃ snap, o = Some snap ∧ rates snap = Nullish.
Proof.
  intros Hget. unfold serves_null_rates, run. rewrite Hget; cbn. split.
  - intros (snap & Heq & Hnull). injection Heq as ->. eauto.
  - intros (snap & -> & Hnull). eauto.
Qed.

(** X10. [getExchangeRates] always resolves, database error or not.
    [convertCurrency] and [getAvailableCurrencies] reject in one case only,
    with a [TypeError]: the snapshot they obtain has [null] or [undefined]
    for [rates]; in every other case they resolve.  None of the three
    writes the table. *)
Theorem reads_reject_only_on_null_rates w s :
  ((∃ o, run getExchangeRates w s = Normal o)
   ∧ db (exec getExchangeRates w s) = db s)
  ∧ (∀ from to amount,
       (serves_null_rates w s
        → run (convertCurrency from to amount) w s = Throw TypeError)
       ∧ (¬ serves_null_rates w s
          → ∃ o, run (convertCurrency from to amount) w s = Normal o)
       ∧ db (exec (convertCurrency from to amount) w s) = db s)
  ∧ (serves_null_rates w s → run getAvailableCurrencies w s = Throw TypeError)
  ∧ (¬ serves_null_rates w s → ∃ o, run getAvailableCurrencies w s = Normal o)
  ∧ db (exec getAvailableCurrencies w s) = db s.
Proof.
  destruct (getExchangeRates_frame w s) as (o & s' & Hget & _ & Hdb).
  pose proof (serves_null_rates_inv w s o s' Hget) as Hnull.
  unfold run, exec. split_and!.
  - rewrite Hget. eauto.
  - by rewrite Hget.
  - intros from to amount. rewrite convertCurrency_unfold, Hget.
    split_and!.
    + rewrite Hnull. by intros (snap & -> & ->).
    + rewrite Hnull. intros Hnot.
      destruct o as [ratesData|]; [|eauto].
      destruct (rates ratesData) as [r|] eqn:Hrates; [|destruct Hnot; eauto].
      destruct (r !! from), (r !! to); eauto.
      destruct (falsy _ || falsy _); eauto.
    + destruct o as [ratesData|]; [|done].
      destruct (rates ratesData) as [r|]; [|done].
      destruct (r !! from), (r !! to); try done.
      by destruct (falsy _ || falsy _).
  - rewrite getAvailableCurrencies_unfold, Hget, Hnull.
    by intros (snap & -> & ->).
  - rewrite getAvailableCurrencies_unfold, Hget, Hnull. intros Hnot.
    destruct o as [ratesData|]; [|eauto].
    destruct (rates ratesData) as [r|] eqn:Hrates; [eauto|destruct Hnot; eauto].
  - rewrite getAvailableCurrencies_unfold, Hget.
    destruct o as [ratesData|]; [|done]. by destruct (rates ratesData).
Qed.

End ServiceProperties.

Section ReadProperties.
Context {num : Type} `{JSNumber num}.

Implicit Types (w : World num) (s : State num) (snap : Snapshot num).

(** X11. With a snapshot in the cache the reads are pure: they leave the
    whole state as it is (no database access, nothing logged), and what
    [getExchangeRates] and [convertCurrency] return does not depend on the
    world they run in. *)
Theorem live_cache_reads_are_pure w s snap :
  ratesCache s = Some snap →
  exec getExchangeRates w s = s
  ∧ (∀ w', run getExchangeRates w' s = Normal (Some snap))
  ∧ (∀ from to amount,
       exec (convertCurrency from to amount) w s = s
       ∧ ∀ w', run (convertCurrency from to amount) w' s
               = run (convertCurrency from to amount) w s)
  ∧ exec getAvailableCurrencies w s = s.
Proof.
  intros Hcache.
  pose proof (λ w0, getExchangeRates_hit w0 s snap Hcache) as Hhit.
  unfold run, exec. split_and!.
  - by rewrite Hhit.
  - intros w'. by rewrite Hhit.
  - intros from to amount. split.
    + rewrite convertCurrency_unfold, Hhit.
      destruct (rates snap) as [r|]; [|done].
      destruct (r !! from), (r !! to); try done.
      by destruct (falsy _ || falsy _).
    + intros w'. by rewrite !convertCurrency_unfold, !Hhit.
  - rewrite getAvailableCurrencies_unfold, Hhit. by destruct (rates snap).
Qed.

(** X12. With a snapshot available whose rates are a mapping, and [from]
    and [to] three-letter codes as the controller guarantees,
    [convertCurrency] returns a conversion exactly when both codes are keys
    of the mapping with truthy values; in every other case it resolves to
    [null]. *)
Theorem convertCurrency_converts_iff w s snap r from to amount :
  run getExchangeRates w s = Normal (Some snap) →
  rates snap = RatesObject r →
  validateCurrencyCode from = true →
  validateCurrencyCode to = true →
  ((∃ c, run (convertCurrency from to amount) w s = Normal (Some c))
   ↔ ∃ rate_from rate_to,
       r !! from = Some rate_from ∧ r !! to = Some rate_to
       ∧ falsy rate_from = false ∧ falsy rate_to = false)
  ∧ (run (convertCurrency from to amount) w s = Normal None
     ∨ ∃ c, run (convertCurrency from to amount) w s = Normal (Some c)).
Proof.
  unfold run. intros Hget Hrates _ _. rewrite convertCurrency_unfold.
  destruct (getExchangeRates w s) as [o s']; cbn in Hget; subst o.
  rewrite Hrates.
  destruct (r !! from) as [rf|]; cbn.
  2: { split; [|by left]. split; [by intros [? ?]|]. by intros (? & ? & [=] & _). }
  destruct (r !! to) as [rt|]; cbn.
  2: { split; [|by left]. split; [by intros [? ?]|].
       by intros (? & ? & _ & [=] & _). }
  destruct (falsy rf) eqn:Hrf; cbn.
  { split; [|by left]. split; [by intros [? ?]|].
    intros (? & ? & [= <-] & _ & Hf & _). congruence. }
  destruct (falsy rt) eqn:Hrt; cbn.
  { split; [|by left]. split; [by intros [? ?]|].
    intros (? & ? & _ & [= <-] & _ & Hf). congruence. }
  split; [|right; eauto]. split; [|eauto]. intros _. by exists rf, rt.
Qed.

(** X13. Listing and conversion agree: on a snapshot whose rates are all
    truthy, any two codes that [getAvailableCurrencies] lists can be
    converted into each other. *)
Theorem listed_codes_convert w s snap r l from to amount :
  run getExchangeRates w s = Normal (Some snap) →
  rates snap = RatesObject r →
  map_Forall (λ _ x, falsy x = false) r →
  run getAvailableCurrencies w s = Normal (Some l) →
  from ∈ code <$> currencies l →
  to ∈ code <$> currencies l →
  ∃ c, run (convertCurrency from to amount) w s = Normal (Some c)
       ∧ conv_from c = from ∧ conv_to c = to.
Proof.
  unfold run. intros Hget Hrates Htruthy Hlist Hfrom Hto.
  rewrite getAvailableCurrencies_unfold in Hlist.
  rewrite convertCurrency_unfold.
  destruct (getExchangeRates w s) as [o s']; cbn in Hget; subst o.
  rewrite Hrates in Hlist |- *.
  cbn in Hlist. injection Hlist as <-. cbn in Hfrom, Hto.
  rewrite currencies_of_codes, list_elem_of_filter, Object_keys_elem in Hfrom, Hto.
  destruct Hfrom as [_ [rf Hrf]], Hto as [_ [rt Hrt]].
  rewrite Hrf, Hrt, (Htruthy _ _ Hrf), (Htruthy _ _ Hrt); cbn. eauto.
Qed.

End ReadProperties.

(** ** Validation *)

Lemma is_upper_range (c : ascii) :
  is_upper c = true ↔ (65 ≤ nat_of_ascii c ≤ 90)%nat.
Proof.
  unfold is_upper. rewrite andb_true_iff, !Nat.leb_le. done.
Qed.

(** X14. [validateCurrencyCode] accepts exactly the strings of three
    characters that are all capital letters [A] to [Z]. *)
Theorem validateCurrencyCode_three_capitals (c : string) :
  validateCurrencyCode c = true
  ↔ String.length c = 3%nat
    ∧ Forall (λ ch, (65 ≤ nat_of_ascii ch ≤ 90)%nat) (list_ascii_of_string c).
Proof.
  destruct c as [|a [|b [|d [|e rest]]]]; cbn;
    try (split; [done | by intros [[=] _]]).
  rewrite !andb_true_iff, !is_upper_range, !Forall_cons. split.
  - intros [[? ?] ?]. repeat (split; [done|]). apply Forall_nil_2.
  - by intros (_ & ? & ? & ? & _).
Qed.

(** ** Controllers *)

Create HintDb controller_ops.
Global Hint Unfold
  currencyController.getRates currencyController.getCurrencies
  currencyController.convert currencyController.optional_toUpperCase
  currencyController.res_json
  currencyController.invalid_code_response
  currencyController.invalid_amount_response : controller_ops.

Section ControllerProperties.
Context {num : Type} `{JSNumber num} `{JSCompare num}.
Context (toUpperCase : string → string) (Number : QueryValue → num).

Implicit Types (w : World num) (s : State num) (req : Request).

Lemma convertCurrency_frame w s from to amount :
  ∃ c s', convertCurrency from to amount w s = (c, s')
          ∧ ratesCache s' = ratesCache s ∧ db s' = db s
          ∧ completes_unless_null_rates w s c.
Proof.
  destruct (getExchangeRates_frame w s) as (o & s' & Hget & Hcache & Hdb).
  pose proof (serves_null_rates_inv w s o s' Hget) as Hnull.
  rewrite convertCurrency_unfold, Hget. unfold completes_unless_null_rates.
  destruct o as [ratesData|].
  - destruct (rates ratesData) as [r|] eqn:Hrates.
    + assert (¬ serves_null_rates w s) as Hnot
        by (rewrite Hnull; intros (? & [= <-] & ?); congruence).
      destruct (r !! from), (r !! to); eauto 10.
      destruct (falsy _ || falsy _); eauto 10.
    + do 2 eexists. do 3 (split; [done|]). split; [done|].
      rewrite Hnull. eauto.
  - do 2 eexists. do 3 (split; [done|]).
    rewrite Hnull. by intros (? & [=] & _).
Qed.

Lemma getAvailableCurrencies_frame w s :
  ∃ c s', getAvailableCurrencies w s = (c, s')
          ∧ ratesCache s' = ratesCache s ∧ db s' = db s
          ∧ completes_unless_null_rates w s c.
Proof.
  destruct (getExchangeRates_frame w s) as (o & s' & Hget & Hcache & Hdb).
  pose proof (serves_null_rates_inv w s o s' Hget) as Hnull.
  rewrite getAvailableCurrencies_unfold, Hget. unfold completes_unless_null_rates.
  destruct o as [ratesData|].
  - destruct (rates ratesData) as [r|] eqn:Hrates.
    + do 2 eexists. do 3 (split; [done|]).
      rewrite Hnull. intros (? & [= <-] & ?). congruence.
    + do 2 eexists. do 3 (split; [done|]). split; [done|].
      rewrite Hnull. eauto.
  - do 2 eexists. do 3 (split; [done|]).
    rewrite Hnull. by intros (? & [=] & _).
Qed.

Lemma controller_getRates_unfold w s :
  currencyController.getRates w s
  = match getExchangeRates w s with
    | (Normal (Some snap), s') =>
        (Normal (currencyController.res_json (currencyController.JsonRates snap)), s')
    | (Normal None, s') =>
        (Normal (currencyController.mkResponse 404
                   (currencyController.JsonError "No exchange rates available")), s')
    | (Throw e, s') =>
        (Normal (currencyController.mkResponse 500
                   (currencyController.JsonError "Failed to retrieve rates")),
         mkState (ratesCache s') (db s')
                 (ConsoleError "Error in getRates controller:" e :: console s')
                 (io s'))
    end.
Proof.
  unfold currencyController.getRates, try_catch, mbind, M_bind, bind.
  by destruct (getExchangeRates w s) as [[[snap|]|e] s'].
Qed.

Lemma controller_getCurrencies_unfold w s :
  currencyController.getCurrencies w s
  = match getAvailableCurrencies w s with
    | (Normal (Some l), s') =>
        (Normal (currencyController.res_json
                   (currencyController.JsonCurrencies (num := num) l)), s')
    | (Normal None, s') =>
        (Normal (currencyController.mkResponse 404
                   (currencyController.JsonError "Currency data not available")), s')
    | (Throw e, s') =>
        (Normal (currencyController.mkResponse 500
                   (currencyController.JsonError "Failed to retrieve currencies")),
         mkState (ratesCache s') (db s')
                 (ConsoleError "Error in getCurrencies controller:" e :: console s')
                 (io s'))
    end.
Proof.
  unfold currencyController.getCurrencies, try_catch, mbind, M_bind, bind.
  by destruct (getAvailableCurrencies w s) as [[[l|]|e] s'].
Qed.

(** X15. [GET /rates] always answers, and never with 500: it sends the
    snapshot with status 200 when [getExchangeRates] resolves to one, and
    404 otherwise, database errors included. *)
Theorem controller_getRates_answers w s :
  run currencyController.getRates w s
  = Normal
      match resolved (run getExchangeRates w s) with
      | Some snap => currencyController.mkResponse 200 (currencyController.JsonRates snap)
      | None =>
          currencyController.mkResponse 404
            (currencyController.JsonError "No exchange rates available")
      end.
Proof.
  destruct (getExchangeRates_frame w s) as (o & s' & Hget & _).
  unfold run. rewrite controller_getRates_unfold, Hget. by destruct o.
Qed.

(** X16. [GET /currencies] always answers: with the listing and status
    200 when [getAvailableCurrencies] resolves to one, with 404 when it
    resolves to [null], and with 500 when it rejects, which happens exactly
    when the snapshot served has [null] or [undefined] for [rates]. *)
Theorem controller_getCurrencies_answers w s :
  ∃ resp,
    run currencyController.getCurrencies w s = Normal resp
    ∧ resp = match run getAvailableCurrencies w s with
             | Normal (Some l) =>
                 currencyController.mkResponse 200
                   (currencyController.JsonCurrencies (num := num) l)
             | Normal None =>
                 currencyController.mkResponse 404
                   (currencyController.JsonError "Currency data not available")
             | Throw _ =>
                 currencyController.mkResponse 500
                   (currencyController.JsonError "Failed to retrieve currencies")
             end
    ∧ (currencyController.status resp = 500%nat ↔ serves_null_rates w s).
Proof.
  destruct (getAvailableCurrencies_frame w s) as (c & s' & Hget & _ & _ & Hc).
  unfold run. rewrite controller_getCurrencies_unfold, Hget.
  destruct c as [[l|]|e]; cbn in *; eexists; (split; [reflexivity|]);
    (split; [reflexivity|]); cbn; split; try done; by intros [_ ?] || tauto.
Qed.

(** X17. [GET /convert] answers a request that fails validation with
    status 400 before the service is called: the state is untouched (no
    database access, nothing logged). *)
Theorem controller_convert_rejects_invalid w s req :
  is_nested (query_from req) = false →
  is_nested (query_to req) = false →
  accepted toUpperCase Number req = false →
  ∃ resp, currencyController.convert toUpperCase Number req w s = (Normal resp, s)
          ∧ currencyController.status resp = 400%nat.
Proof.
  unfold accepted. intros Hfrom Hto Hrej.
  autounfold with controller_ops. unfold_service.
  destruct (query_from req) as [|f|]; [|destruct (query_to req) as [|t|]|done];
    cbn in *; try done.
  1,2: destruct (query_to req); cbn in *; try done; eauto.
  destruct (validateCurrencyCode (toUpperCase f)); cbn in *;
    [|rewrite orb_true_r; eauto].
  destruct (validateCurrencyCode (toUpperCase t)); cbn in *;
    [|rewrite orb_true_r; eauto].
  rewrite Hrej; cbn.
  destruct (String.eqb _ "" || String.eqb _ ""); cbn; eauto.
Qed.

(** X18. [GET /convert] always answers a request that passes validation:
    with the service's conversion of the upper-cased codes and status 200,
    with status 400 when the service resolves to [null], and with 500 when
    the service rejects, which happens exactly when the snapshot served has
    [null] or [undefined] for [rates]. *)
Theorem controller_convert_answers_valid w s req f t :
  query_from req = QString f →
  query_to req = QString t →
  accepted toUpperCase Number req = true →
  ∃ resp,
    run (currencyController.convert toUpperCase Number req) w s = Normal resp
    ∧ resp = match run (convertCurrency (toUpperCase f) (toUpperCase t)
                          (Number (query_amount req))) w s with
             | Normal (Some c) =>
                 currencyController.mkResponse 200
                   (currencyController.JsonConversion c)
             | Normal None =>
                 currencyController.mkResponse 400
                   (currencyController.JsonError
                      "Invalid currency code or rates not available")
             | Throw _ =>
                 currencyController.mkResponse 500
                   (currencyController.JsonError "Conversion failed")
             end
    ∧ (currencyController.status resp = 500%nat ↔ serves_null_rates w s).
Proof.
  unfold accepted. intros Hf Ht. rewrite Hf, Ht.
  intros [[Hvf Hvt]%andb_true_iff Hamount]%andb_true_iff.
  destruct (convertCurrency_frame w s (toUpperCase f) (toUpperCase t)
              (Number (query_amount req))) as (c & s' & Hconv & _ & _ & Hc).
  unfold run. rewrite Hconv; cbn.
  unfold currencyController.convert, currencyController.optional_toUpperCase,
    mbind, mret, M_bind, M_ret, bind, ret, try_catch.
  rewrite Hf, Ht, Hvf, Hvt, Hamount; cbn.
  assert (String.eqb (toUpperCase f) "" = false) as ->.
  { apply String.eqb_neq. intros Heq. by rewrite Heq in Hvf. }
  assert (String.eqb (toUpperCase t) "" = false) as ->.
  { apply String.eqb_neq. intros Heq. by rewrite Heq in Hvt. }
  cbn. rewrite Hconv.
  destruct c as [[conv|]|e]; cbn in *; eexists; (split; [reflexivity|]);
    (split; [reflexivity|]); cbn; split; try done; by intros [_ ?] || tauto.
Qed.

(** X19. A [from] parameter that arrives as an array or object (or a [to]
    that does, after a [from] that does not) makes [GET /convert] reject
    with a [TypeError] instead of answering: the upper-casing runs before
    the validation and outside the [try]. *)
Theorem controller_convert_nested_query_throws w s req :
  is_nested (query_from req) || is_nested (query_to req) = true →
  currencyController.convert toUpperCase Number req w s = (Throw TypeError, s).
Proof.
  intros Hnested. autounfold with controller_ops. unfold_service.
  destruct (query_from req); cbn in *; try done;
    destruct (query_to req); cbn in *; done.
Qed.

End ControllerProperties.

(** ** The server *)

Section ServerProperties.
Context {num : Type} `{JSNumber num} `{JSCompare num}.
Context (toUpperCase : string → string) (Number : QueryValue → num).

Implicit Types (w : World num) (s : State num) (req : Request).

(** Cache and table after a refresh, case by case. *)
Lemma updateExchangeRates_effect w s :
  let s' := exec updateExchangeRates w s in
  match upstream w with
  | Body (JObject result r) =>
      if String.eqb result "success" then
        ratesCache s' = Some (fresh_snapshot w r)
        ∧ db s' = match db_run_err w with
                  | None =>
                      <[BASE_CURRENCY :=
                          mkRow BASE_CURRENCY (JSON_stringify r)
                            (CURRENT_TIMESTAMP w)]>
                        (db s)
                  | Some _ => db s
                  end
      else ratesCache s' = ratesCache s ∧ db s' = db s
  | _ =>
      db s' = db s
      ∧ ratesCache s' =
          match ratesCache s with
          | Some snap => Some snap
          | None =>
              match db_get_err w, db s !! BASE_CURRENCY with
              | None, Some row =>
                  match row_rates row with
                  | Serialized parsed => Some (stored_snapshot row parsed)
                  | NullText =>
                      Some (mkSnapshot (row_base_currency row) Nullish
                              (row_last_updated row))
                  | Garbled _ => None
                  end
              | _, _ => None
              end
          end
  end.
Proof.
  unfold_service.
  destruct (upstream w) as [| | [|result r]]; cbn;
    [| | |destruct (String.eqb result "success"); cbn;
          [by destruct (db_run_err w)|done]];
    (destruct (ratesCache s) as [snap|] eqn:Hcache; cbn;
       [by rewrite ?Hcache|]);
    (destruct (db_get_err w); cbn; [by rewrite ?Hcache|]);
    (destruct (db s !! BASE_CURRENCY) as [row|]; cbn; [|by rewrite ?Hcache]);
    by destruct (row_rates row); cbn; rewrite ?Hcache.
Qed.

Lemma exec_discard {A} (m : M num A) w s :
  exec (m;; mret tt) w s = exec m w s.
Proof.
  unfold exec, mbind, mret, M_bind, M_ret, bind, ret.
  by destruct (m w s) as [[a|e] s'].
Qed.

Lemma controller_convert_frame w s req :
  ratesCache (exec (currencyController.convert toUpperCase Number req) w s)
  = ratesCache s
  ∧ db (exec (currencyController.convert toUpperCase Number req) w s) = db s.
Proof.
  unfold exec, currencyController.convert, currencyController.optional_toUpperCase,
    mbind, mret, M_bind, M_ret, bind, ret, throw, try_catch.
  destruct (query_from req) as [|f|]; cbn; [| |done];
    (destruct (query_to req) as [|t|]; cbn; try done).
  destruct (_ || _); cbn; [done|].
  destruct (negb _); cbn; [done|].
  destruct (convertCurrency_frame w s (toUpperCase f) (toUpperCase t)
              (Number (query_amount req))) as (c & s' & -> & Hcache & Hdb & _).
  by destruct c as [[conv|]|e].
Qed.

(** Handling a request leaves cache and table as they are. *)
Lemma handle_request_frame w s ev :
  is_request ev = true →
  ratesCache (exec (handle toUpperCase Number ev) w s) = ratesCache s
  ∧ db (exec (handle toUpperCase Number ev) w s) = db s.
Proof.
  destruct ev as [| | |req]; cbn [handle]; [done|..]; intros _;
    rewrite exec_discard.
  - destruct (getExchangeRates_frame w s) as (o & s' & Hget & Hcache & Hdb).
    unfold exec. rewrite controller_getRates_unfold, Hget. by destruct o.
  - destruct (getAvailableCurrencies_frame w s)
      as (c & s' & Hget & Hcache & Hdb & _).
    unfold exec. rewrite controller_getCurrencies_unfold, Hget.
    by destruct c as [[l|]|e].
  - apply controller_convert_frame.
Qed.

Lemma serve_cons ev w events s :
  serve toUpperCase Number ((ev, w) :: events) s
  = serve toUpperCase Number events (exec (handle toUpperCase Number ev) w s).
Proof. reflexivity. Qed.

(** X20. Requests are read-only: a run of the server in which no update
    fires, however many requests of whatever kind it serves, ends with the
    cache and the table it started with. *)
Theorem requests_are_read_only events s :
  Forall (λ ew, is_request ew.1 = true) events →
  ratesCache (serve toUpperCase Number events s) = ratesCache s
  ∧ db (serve toUpperCase Number events s) = db s.
Proof.
  intros Hreq. revert s.
  induction Hreq as [|[ev w] events Hev _ IH]; intros s; [done|].
  rewrite serve_cons.
  destruct (IH (exec (handle toUpperCase Number ev) w s)) as [-> ->].
  by apply handle_request_frame.
Qed.

(** X21. Once the cache holds a snapshot it never becomes empty again,
    whatever updates and requests follow and however they fare. *)
Theorem cache_never_emptied events s :
  is_Some (ratesCache s) →
  is_Some (ratesCache (serve toUpperCase Number events s)).
Proof.
  revert s. induction events as [|[ev w] events IH]; intros s Hlive; [done|].
  rewrite serve_cons. apply IH.
  destruct (is_request ev) eqn:Hev.
  - by destruct (handle_request_frame w s ev Hev) as [-> _].
  - destruct ev; try done. cbn [handle].
    pose proof (updateExchangeRates_effect w s) as Heff. cbn zeta in Heff.
    destruct Hlive as [snap Hsnap].
    destruct (upstream w) as [| | [|result r]];
      [| | |destruct (String.eqb result "success")];
      destruct Heff as [H1 H2]; rewrite ?H1, ?H2, ?Hsnap; by eexists.
Qed.

(** X22. The service keeps to one base currency: if every row of the table
    is filed under USD as a USD row and the cache, if set, holds a USD
    snapshot, the same is true after any run of updates and requests. *)
Theorem single_base_preserved events s :
  single_base s → single_base (serve toUpperCase Number events s).
Proof.
  revert s. induction events as [|[ev w] events IH]; intros s Hinv; [done|].
  rewrite serve_cons. apply IH. destruct Hinv as [Hcache Htable].
  destruct (is_request ev) eqn:Hev.
  { destruct (handle_request_frame w s ev Hev) as [Hc Hd].
    split; [by rewrite Hc | by rewrite Hd]. }
  destruct ev; try done. cbn [handle].
  pose proof (updateExchangeRates_effect w s) as Heff. cbn zeta in Heff.
  destruct (upstream w) as [| | [|result r]];
    [| | |destruct (String.eqb result "success")].
  1-3: destruct Heff as [Hd Hc]; split; [|by rewrite Hd];
    rewrite Hc; intros snap;
    (destruct (ratesCache s) as [snap0|]; [intros [= <-]; by apply Hcache|]);
    (destruct (db_get_err w); [done|]);
    (destruct (db s !! BASE_CURRENCY) as [row|] eqn:Hrow; [|done]);
    (destruct (row_rates row); [| |done]);
    intros [= <-]; cbn; by apply Htable in Hrow as [_ ?].
  - destruct Heff as [Hc Hd]. split.
    + rewrite Hc. by intros ? [= <-].
    + rewrite Hd. destruct (db_run_err w); [done|]. intros k row.
      destruct (decide (k = BASE_CURRENCY)) as [->|Hne].
      * rewrite lookup_insert_eq. by intros [= <-].
      * rewrite lookup_insert_ne by done. apply Htable.
  - destruct Heff as [Hc Hd]. split; [by rewrite Hc | by rewrite Hd].
Qed.

End ServerProperties.

(** ** I/O performed *)

Section IOProperties.
Context {num : Type} `{JSNumber num}.

Implicit Types (w : World num) (s : State num).

(** X23. One refresh makes one upstream request and at most one database
    operation: an upsert exactly when the status is ["success"], a select
    exactly when the [try] block threw and the cache was empty, and none
    otherwise. *)
Theorem refresh_io_budget w s :
  io (exec updateExchangeRates w s)
  = (match upstream w with
    | Body (JObject result _) =>
        if String.eqb result "success"
        then [IoDbRun BASE_CURRENCY; IoFetch]
        else [IoFetch]
    | _ =>
        match ratesCache s with
        | None => [IoDbGet BASE_CURRENCY; IoFetch]
        | Some _ => [IoFetch]
        end
    end ++ io s)%list.
Proof.
  unfold_service.
  destruct (upstream w) as [| | [|result r]]; cbn;
    [| | |destruct (String.eqb result "success"); cbn;
          [by destruct (db_run_err w)|done]];
    (destruct (ratesCache s) as [snap|] eqn:Hcache; cbn;
       [by rewrite ?Hcache|]);
    (destruct (db_get_err w); cbn; [by rewrite ?Hcache|]);
    (destruct (db s !! BASE_CURRENCY) as [row|]; cbn; [|by rewrite ?Hcache]);
    by destruct (row_rates row); cbn; rewrite ?Hcache.
Qed.

(** X24. A read never calls the provider: each of the three reads performs
    one select when the cache is empty and no I/O at all when it is set. *)
Theorem reads_io_budget w s :
  let cost := match ratesCache s with
              | None => [IoDbGet BASE_CURRENCY]
              | Some _ => []
              end in
  io (exec getExchangeRates w s) = (cost ++ io s)%list
  ∧ (∀ from to amount,
       io (exec (convertCurrency from to amount) w s) = (cost ++ io s)%list)
  ∧ io (exec getAvailableCurrencies w s) = (cost ++ io s)%list.
Proof.
  assert (∃ o s', getExchangeRates w s = (Normal o, s')
                  ∧ io s' = (match ratesCache s with
                             | None => [IoDbGet BASE_CURRENCY]
                             | Some _ => []
                             end ++ io s)%list) as (o & s' & Hget & Hio).
  { unfold_service. destruct (ratesCache s); cbn; [eauto|].
    destruct (db_get_err w); cbn; [eauto|].
    destruct (db s !! BASE_CURRENCY) as [row|]; cbn; [|eauto].
    destruct (JSON_parse (row_rates row)); cbn; eauto. }
  cbn zeta. unfold exec. split_and!.
  - by rewrite Hget.
  - intros from to amount. rewrite convertCurrency_unfold, Hget.
    destruct o as [ratesData|]; [|done].
    destruct (rates ratesData) as [r|]; [|done].
    destruct (r !! from), (r !! to); try done.
    by destruct (falsy _ || falsy _).
  - rewrite getAvailableCurrencies_unfold, Hget.
    destruct o as [ratesData|]; [|done]. by destruct (rates ratesData).
Qed.

End IOProperties.

(** ** Instances of the further properties on the sample data *)


Lemma saveRates_last_write_wins_witness :
  db (exec (saveRates "USD" (RatesObject sample_rates)) later_success_world
        (exec (saveRates "USD" (RatesObject listing_rates)) success_world
           cold_cache_state))
  = db (exec (saveRates "USD" (RatesObject sample_rates)) later_success_world
          cold_cache_state).
Proof.
  apply (saveRates_last_write_wins success_world later_success_world
           cold_cache_state "USD" (RatesObject listing_rates)
           (RatesObject sample_rates)); reflexivity.
Defined.

Lemma saveRates_touches_one_row_witness :
  db (exec (saveRates "EUR" (RatesObject sample_rates)) success_world
        cold_cache_state) !! "USD"
  = db cold_cache_state !! "USD".
Proof.
  destruct (saveRates_touches_one_row success_world cold_cache_state
              "EUR" (RatesObject sample_rates)) as (_ & Hother & _).
  apply Hother. discriminate.
Defined.

Lemma getRates_reads_only_witness :
  run (getRates BASE_CURRENCY) (world_with FetchRejects) garbled_state
  = Throw SyntaxError.
Proof.
  destruct (getRates_reads_only (world_with FetchRejects) garbled_state
              BASE_CURRENCY) as (_ & _ & _ & Hgarbled).
  apply (Hgarbled garbled_row "{not json"); reflexivity.
Defined.

Lemma refresh_success_installs_and_persists_witness :
  ratesCache (exec updateExchangeRates success_world cold_cache_state)
  = Some (fresh_snapshot success_world (RatesObject sample_rates)).
Proof.
  apply (refresh_success_installs_and_persists success_world cold_cache_state
           (RatesObject sample_rates)).
  reflexivity.
Defined.


Lemma refresh_idempotent_witness :
  let s1 := exec updateExchangeRates success_world cold_cache_state in
  let s2 := exec updateExchangeRates later_success_world s1 in
  rates <$> ratesCache s2 = rates <$> ratesCache s1
  ∧ last_updated <$> ratesCache s2 = Some (date_now later_success_world).
Proof.
  destruct (refresh_idempotent success_world later_success_world cold_cache_state
              (RatesObject sample_rates)) as (Hrates & _ & Hdate & _);
    [reflexivity..|].
  split; [exact Hrates | exact Hdate].
Defined.

Lemma reads_reject_only_on_null_rates_witness :
  run (convertCurrency "USD" "EUR" (Q2Qc 10)) (world_with FetchRejects)
      null_rates_state
  = Throw TypeError.
Proof.
  destruct (reads_reject_only_on_null_rates (world_with FetchRejects)
              null_rates_state) as (_ & Hconvert & _).
  destruct (Hconvert "USD" "EUR" (Q2Qc 10)) as (Hthrows & _).
  apply Hthrows.
  exists (mkSnapshot BASE_CURRENCY Nullish "2023-12-31 00:00:00").
  split; reflexivity.
Defined.

Lemma refresh_warms_cache_from_store_witness :
  ratesCache (exec updateExchangeRates (world_with JsonRejects) cold_cache_state)
  = Some (stored_snapshot sample_row sample_rates).
Proof.
  apply (refresh_warms_cache_from_store (world_with JsonRejects) cold_cache_state
           SyntaxError sample_row sample_rates); reflexivity.
Defined.

Lemma live_cache_reads_are_pure_witness :
  exec getAvailableCurrencies (world_with FetchRejects) live_state = live_state.
Proof.
  apply (live_cache_reads_are_pure (world_with FetchRejects) live_state
           sample_snapshot).
  reflexivity.
Defined.

Lemma convertCurrency_converts_iff_witness :
  run (convertCurrency "EUR" "XYZ" (Q2Qc 10)) (world_with FetchRejects) live_state
  = Normal None
  ∨ ∃ c, run (convertCurrency "EUR" "XYZ" (Q2Qc 10)) (world_with FetchRejects)
           live_state = Normal (Some c).
Proof.
  apply (convertCurrency_converts_iff (world_with FetchRejects) live_state
           sample_snapshot sample_rates "EUR" "XYZ" (Q2Qc 10));
    reflexivity.
Defined.

Lemma listed_codes_convert_witness :
  ∃ c, run (convertCurrency "JPY" "EUR" (Q2Qc 10)) (world_with FetchRejects)
         live_state = Normal (Some c)
       ∧ conv_from c = "JPY" ∧ conv_to c = "EUR".
Proof.
  apply (listed_codes_convert (world_with FetchRejects) live_state sample_snapshot
           sample_rates
           (mkCurrencyList
              (currencies_of (world_with FetchRejects) (Object_keys sample_rates))
              (last_updated sample_snapshot))).
  - reflexivity.
  - reflexivity.
  - apply (bool_decide_unpack _). vm_compute. reflexivity.
  - reflexivity.
  - apply (bool_decide_unpack _). vm_compute. reflexivity.
  - apply (bool_decide_unpack _). vm_compute. reflexivity.
Defined.

Lemma controller_convert_rejects_invalid_witness :
  ∃ resp,
    currencyController.convert sample_toUpperCase sample_Number
      lowercase_digit_request (world_with FetchRejects) cold_cache_state
    = (Normal resp, cold_cache_state)
    ∧ currencyController.status resp = 400%nat.
Proof.
  apply controller_convert_rejects_invalid; reflexivity.
Defined.

Lemma controller_getCurrencies_answers_witness :
  ∃ resp,
    run currencyController.getCurrencies (world_with FetchRejects) null_rates_state
    = Normal resp
    ∧ currencyController.status resp = 500%nat.
Proof.
  destruct (controller_getCurrencies_answers (world_with FetchRejects)
              null_rates_state) as (resp & Hrun & _ & Hstatus).
  exists resp. split; [exact Hrun|]. apply Hstatus.
  exists (mkSnapshot BASE_CURRENCY Nullish "2023-12-31 00:00:00").
  split; reflexivity.
Defined.

Lemma controller_convert_answers_valid_witness :
  ∃ resp,
    run (currencyController.convert sample_toUpperCase sample_Number good_request)
        (world_with FetchRejects) live_state
    = Normal resp
    ∧ resp = currencyController.mkResponse 200
               (currencyController.JsonConversion sample_conversion).
Proof.
  destruct (controller_convert_answers_valid sample_toUpperCase sample_Number
              (world_with FetchRejects) live_state good_request "eur" "jpy")
    as (resp & Hrun & Hresp & _); [vm_compute; reflexivity..|].
  exists resp. split; [exact Hrun|]. rewrite Hresp. vm_compute. reflexivity.
Defined.

Lemma controller_convert_nested_query_throws_witness :
  currencyController.convert sample_toUpperCase sample_Number nested_request
    (world_with FetchRejects) live_state
  = (Throw TypeError, live_state).
Proof. apply controller_convert_nested_query_throws. reflexivity. Defined.

Lemma requests_are_read_only_witness :
  ratesCache (serve sample_toUpperCase sample_Number request_events cold_cache_state)
  = None
  ∧ db (serve sample_toUpperCase sample_Number request_events cold_cache_state)
    = db cold_cache_state.
Proof.
  apply (requests_are_read_only sample_toUpperCase sample_Number request_events
           cold_cache_state).
  repeat constructor.
Defined.

Lemma cache_never_emptied_witness :
  is_Some (ratesCache (serve sample_toUpperCase sample_Number mixed_events live_state)).
Proof.
  apply cache_never_emptied. by eexists.
Defined.

Lemma single_base_preserved_witness :
  single_base (serve sample_toUpperCase sample_Number mixed_events cold_cache_state).
Proof.
  apply single_base_preserved. split.
  - intros snap Hsnap. discriminate Hsnap.
  - intros k row Hrow. unfold cold_cache_state in Hrow; cbn in Hrow.
    apply lookup_singleton_Some in Hrow as [<- <-]. by split.
Defined.
